(** * ZenCube session manager: a shallow embedding of the web dashboard,
      the command-line front end and the desktop terminal widget.

    The Python sources are [web_dashboard.py], [cli.py] and
    [sandbox_test_gui.py].  Everything outside the program (file system,
    toolchains, the sandbox binary, child processes, uuid generation) is
    reached through the [Host] interface below; the program's own logic is
    translated function by function and keeps the names of the source. *)

From Stdlib Require Import ZArith Ascii String.
From stdpp Require Import gmap strings list pretty.

Open Scope string_scope.
Open Scope list_scope.

(** ** Python values that reach the launcher, and the string methods used *)
Module Py.

(** Values found in a limits mapping: [None], an [int] (JSON body or
    argparse) or a [str] (HTML form field). *)
Inductive value :=
| PyNone
| PyInt (z : Z)
| PyStr (s : string).

(** [bool(v)], as tested by [if v:]. *)
Definition truthy (v : value) : bool :=
  match v with
  | PyNone => false
  | PyInt z => negb (z =? 0)%Z
  | PyStr s => negb (String.eqb s "")
  end.

(** [f"{v}"]. *)
Definition format (v : value) : string :=
  match v with
  | PyNone => "None"
  | PyInt z => pretty z
  | PyStr s => s
  end.

(** [x or None] for an optional form field. *)
Definition or_none (x : option string) : value :=
  match x with
  | Some s => if String.eqb s "" then PyNone else PyStr s
  | None => PyNone
  end.

Definition newline : ascii := "010"%char.
Definition nl : string := String newline "".

(** [s.endswith('\n')] *)
Fixpoint endswith_nl (s : string) : bool :=
  match s with
  | "" => false
  | String c "" => Ascii.eqb c newline
  | String _ s' => endswith_nl s'
  end.

(** [s.rstrip('\n')]: every trailing newline is dropped. *)
Fixpoint rstrip_nl (s : string) : string :=
  match s with
  | "" => ""
  | String c s' =>
      let r := rstrip_nl s' in
      if Ascii.eqb c newline && String.eqb r "" then "" else String c r
  end.

(** Text is kept as the bytes of its UTF-8 encoding, one [ascii] a byte,
    as the literals of this file are.  The characters [str.isspace]
    accepts, and [str.strip] takes away, are U+0009..U+000D,
    U+001C..U+001F, U+0020, U+0085, U+00A0, U+1680, U+2000..U+200A,
    U+2028, U+2029, U+202F, U+205F and U+3000. *)

(** The white space of one byte: 09..0D, 1C..1F and 20. *)
Definition is_space (c : ascii) : bool :=
  let n := nat_of_ascii c in
  (n =? 32)%nat || ((9 <=? n)%nat && (n <=? 13)%nat)
  || ((28 <=? n)%nat && (n <=? 31)%nat).

(** The white space of two bytes: U+0085 (C2 85) and U+00A0 (C2 A0). *)
Definition is_space2 (a b : ascii) : bool :=
  let m := nat_of_ascii a in
  let n := nat_of_ascii b in
  (m =? 194)%nat && ((n =? 133)%nat || (n =? 160)%nat).

(** The white space of three bytes: U+1680 (E1 9A 80), U+2000..U+200A
    (E2 80 80..8A), U+2028 and U+2029 (E2 80 A8, E2 80 A9), U+202F
    (E2 80 AF), U+205F (E2 81 9F) and U+3000 (E3 80 80). *)
Definition is_space3 (a b c : ascii) : bool :=
  let l := nat_of_ascii a in
  let m := nat_of_ascii b in
  let n := nat_of_ascii c in
  ((l =? 225)%nat && (m =? 154)%nat && (n =? 128)%nat)
  || ((l =? 226)%nat && (m =? 128)%nat
      && (((128 <=? n)%nat && (n <=? 138)%nat)
          || (n =? 168)%nat || (n =? 169)%nat || (n =? 175)%nat))
  || ((l =? 226)%nat && (m =? 129)%nat && (n =? 159)%nat)
  || ((l =? 227)%nat && (m =? 128)%nat && (n =? 128)%nat).

(** [s.lstrip()] *)
Fixpoint lstrip (s : string) : string :=
  match s with
  | "" => ""
  | String a s1 =>
      if is_space a then lstrip s1
      else
        match s1 with
        | "" => s
        | String b s2 =>
            if is_space2 a b then lstrip s2
            else
              match s2 with
              | "" => s
              | String c s3 => if is_space3 a b c then lstrip s3 else s
              end
        end
  end.

(** Whether [s] is white space from end to end ([not s.strip()]). *)
Definition blank (s : string) : bool := String.eqb (lstrip s) "".

(** [s.rstrip()]: the longest end of [s] that is white space is dropped.
    No white space character starts inside the encoding of another
    character, since none starts with a continuation byte (80..BF). *)
Fixpoint rstrip (s : string) : string :=
  match s with
  | "" => ""
  | String c s' => if blank s then "" else String c (rstrip s')
  end.

(** [s.strip()] *)
Definition strip (s : string) : string := rstrip (lstrip s).

(** [sep.join(parts)] *)
Definition join (sep : string) (parts : list string) : string :=
  String.concat sep parts.

(** [s.lower()] on ASCII letters. *)
Definition lower_char (c : ascii) : ascii :=
  let n := nat_of_ascii c in
  if (65 <=? n)%nat && (n <=? 90)%nat then ascii_of_nat (n + 32) else c.

Fixpoint lower (s : string) : string :=
  match s with
  | "" => ""
  | String c s' => String (lower_char c) (lower s')
  end.

End Py.

(** ** Paths: [pathlib] on a POSIX host *)
Module Paths.

(** A resolved path: the components below the file-system root, with no
    [.], no [..] and no symbolic link left. *)
Definition canon := list string.

(** Proper prefixes, shortest first. *)
Fixpoint proper_prefixes (c : canon) : list canon :=
  match c with
  | [] => []
  | x :: c' => [] :: map (cons x) (proper_prefixes c')
  end.

(** [PurePath.parents]: the logical ancestors, nearest first. *)
Definition parents (c : canon) : list canon := reverse (proper_prefixes c).

(** Splitting a path string at ['/']. *)
Fixpoint components_from (s cur : string) : list string :=
  match s with
  | "" => [cur]
  | String c s' =>
      if Ascii.eqb c "/"%char then cur :: components_from s' ""
      else components_from s' (cur +:+ String c "")
  end.

Definition components (s : string) : list string := components_from s "".

Definition is_absolute (s : string) : bool :=
  match s with
  | String c _ => Ascii.eqb c "/"%char
  | "" => false
  end.

(** One step of lexical normalisation. *)
Definition walk (acc : canon) (seg : string) : canon :=
  if String.eqb seg "" || String.eqb seg "." then acc
  else if String.eqb seg ".." then removelast acc
  else acc ++ [seg].

(** [Path(s).resolve()] on a tree without symbolic links, from the
    working directory [cwd]. *)
Definition lexical_resolve (cwd : canon) (s : string) : canon :=
  fold_left walk (components s) (if is_absolute s then [] else cwd).

(** [str(p)] of a resolved path. *)
Definition to_string (c : canon) : string := "/" +:+ Py.join "/" c.

(** [a / b] for a relative right operand. *)
Definition joinpath (a b : string) : string := a +:+ "/" +:+ b.

(** The last component, [Path.name]. *)
Definition name (s : string) : string := List.last (components s) "".

(** Position-free split of a file name at its last dot: [(stem, suffix)].
    A name with no dot, whose only dot is its first character, or that
    ends in a dot, has the empty suffix. *)
Fixpoint split_ext_from (s stem pending : string) : string * string :=
  match s with
  | "" => if String.eqb pending "." then (stem +:+ pending, "") else (stem, pending)
  | String c s' =>
      if Ascii.eqb c "."%char
      then match stem, pending with
           | "", "" => split_ext_from s' (String c "") ""
           | _, _ => split_ext_from s' (stem +:+ pending) (String c "")
           end
      else match pending with
           | "" => split_ext_from s' (stem +:+ String c "") ""
           | _ => split_ext_from s' stem (pending +:+ String c "")
           end
  end.

Definition stem (s : string) : string := fst (split_ext_from (name s) "" "").
Definition suffix (s : string) : string := snd (split_ext_from (name s) "" "").

End Paths.


(** ** The web dashboard, [web_dashboard.py] *)
Module Web.

Inductive exn :=
| ValueError (msg : string)
| RuntimeError (msg : string)
| OSError (msg : string).

(** [str(e)] *)
Definition exn_message (e : exn) : string :=
  match e with
  | ValueError m | RuntimeError m | OSError m => m
  end.

(** The write end of a child's standard input.  [buffered] is text
    written but not yet flushed, [delivered] what the child can read. *)
Record StdinPipe := {
  closed : bool;
  buffered : string;
  delivered : string;
}.

Definition pipe_write (p : StdinPipe) (s : string) : exn + StdinPipe :=
  if closed p then inl (ValueError "I/O operation on closed file.")
  else inr {| closed := false; buffered := buffered p +:+ s;
              delivered := delivered p |}.

Definition pipe_flush (p : StdinPipe) : exn + StdinPipe :=
  if closed p then inl (ValueError "I/O operation on closed file.")
  else inr {| closed := false; buffered := "";
              delivered := delivered p +:+ buffered p |}.

(** What iterating over [proc.stdout] yields. *)
Inductive read_result :=
| Line (text : string)
| ReadFailure (msg : string).

(** A [subprocess.Popen] object.  [exit_code] is the status the child
    ends with (what [wait()] returns); [exited] tells whether it has
    ended yet; [stdout] is all the merged output it produces. *)
Record Popen := {
  pid : Z;
  exited : bool;
  exit_code : Z;
  stdin : option StdinPipe;
  stdout : list read_result;
}.

(** [proc.poll()] *)
Definition poll (p : Popen) : option Z :=
  if exited p then Some (exit_code p) else None.

(** [subprocess.run(..., capture_output=True)] *)
Record CompletedProcess := {
  returncode : Z;
  run_stdout : string;
  run_stderr : string;
}.

(** The operating system and the external collaborators.  A path is the
    string the program holds; [None] from [host_resolve] is
    [FileNotFoundError], from [host_save], [host_run] and [host_popen]
    the call raising. *)
Class Host (H : Type) := {
  host_resolve : H -> string -> option Paths.canon;
  host_abspath : H -> string -> string;
  host_expanduser : H -> string -> string;
  host_exists : H -> string -> bool;
  host_is_dir : H -> string -> bool;
  host_access_x : H -> string -> bool;
  host_which : H -> string -> bool;
  host_script_dir : H -> string;
  host_time : H -> Z;
  host_mkdir : H -> string -> H;
  host_save : H -> string -> option H;
  host_chmod_755 : H -> string -> H;
  host_rmtree : H -> string -> H;
  host_unlink : H -> string -> H;
  host_run : H -> list string -> option (CompletedProcess * H);
  host_popen : H -> list string -> option (Popen * H);
  host_uuid4_hex : H -> string * H;
  host_secure_filename : string -> string;
  host_analyze : H -> string -> string;
  host_java_package : H -> string -> option string;
}.

(** An entry of [running_processes].  The ['stdin'] key of the source
    aliases [proc.stdin]; both are the [stdin] of [process]. *)
Record proc_info := {
  process : Popen;
  info_pid : Z;
  command : string;
  start_time : Z;
  uploaded_file : option string;
  cleanup_paths : list string;
}.

(** Messages pushed to the browser with [socketio.emit]. *)
Inductive event :=
| Output (process_id line : string)
| ProcessComplete (process_id : string) (return_code : Z) (output : string)
| Error (message : string).

(** What the program does to the outside, in the order it does it. *)
Inductive effect :=
| Emit (e : event)
| Spawn (cmd : list string) (child : Z)
| Rmtree (path : string)
| Unlink (path : string).

Record world (H : Type) := World {
  host : H;
  running_processes : gmap string proc_info;
  effects : list effect;
}.
Arguments World {H}.
Arguments host {H}.
Arguments running_processes {H}.
Arguments effects {H}.

Definition UPLOAD_DIR : string := "uploads".

Section Program.
Context {H : Type} `{Host H}.

Definition with_host (f : H -> H) (w : world H) : world H :=
  World (f (host w)) (running_processes w) (effects w).

Definition with_processes
    (f : gmap string proc_info -> gmap string proc_info) (w : world H) : world H :=
  World (host w) (f (running_processes w)) (effects w).

Definition record (e : effect) (w : world H) : world H :=
  World (host w) (running_processes w) (effects w ++ [e]).

Definition emit (e : event) (w : world H) : world H := record (Emit e) w.

(** [ensure_upload_dir] *)
Definition ensure_upload_dir (w : world H) : world H :=
  with_host (fun h => host_mkdir h UPLOAD_DIR) w.

(** [is_within_uploads] *)
Definition is_within_uploads (h : H) (path : string) : bool :=
  match host_resolve h UPLOAD_DIR, host_resolve h path with
  | Some root, Some resolved =>
      bool_decide (root ∈ Paths.parents resolved) || bool_decide (resolved = root)
  | _, _ => false
  end.

(** The first two loops of [cleanup_process_resources]: the paths that
    pass the containment check, the upload first. *)
Definition paths_to_remove (h : H) (info : proc_info) : list string :=
  (match uploaded_file info with
   | Some uploaded =>
       if negb (String.eqb uploaded "") && is_within_uploads h uploaded
       then [uploaded] else []
   | None => []
   end)
  ++ filter (fun p => is_within_uploads h p = true) (cleanup_paths info).

(** One round of the removal loop; errors are swallowed there. *)
Definition remove_path (w : world H) (path : string) : world H :=
  if host_is_dir (host w) path
  then record (Rmtree path) (with_host (fun h => host_rmtree h path) w)
  else if host_exists (host w) path
  then record (Unlink path) (with_host (fun h => host_unlink h path) w)
  else w.

(** [cleanup_process_resources] *)
Definition cleanup_process_resources (process_id : string) (w : world H) : world H :=
  match running_processes w !! process_id with
  | None => w
  | Some info =>
      let w1 := with_processes (delete process_id) w in
      foldl remove_path w1 (paths_to_remove (host w1) info)
  end.

(** *** Code that can raise: state and exception threaded together *)

Definition M (A : Type) : Type := world H -> (exn + A) * world H.

Definition ret {A} (a : A) : M A := fun w => (inr a, w).

Definition raise {A} (e : exn) : M A := fun w => (inl e, w).

Definition bind {A B} (c : M A) (k : A -> M B) : M B :=
  fun w =>
    match c w with
    | (inl e, w') => (inl e, w')
    | (inr a, w') => k a w'
    end.

Definition gets {A} (f : world H -> A) : M A := fun w => (inr (f w), w).

Definition modify (f : world H -> world H) : M unit := fun w => (inr tt, f w).

#[local] Instance M_ret : MRet M := @ret.
#[local] Instance M_bind : MBind M := fun A B k c => bind c k.

(** [uuid.uuid4().hex] *)
Definition uuid4_hex : M string :=
  fun w => let '(hex, h') := host_uuid4_hex (host w) in
           (inr hex, with_host (fun _ => h') w).

(** [subprocess.run(cmd, capture_output=True, text=True, timeout=60)] *)
Definition subprocess_run (cmd : list string) : M CompletedProcess :=
  fun w =>
    match host_run (host w) cmd with
    | Some (result, h') => (inr result, with_host (fun _ => h') w)
    | None => (inl (OSError ("cannot run " +:+ Py.join " " cmd)), w)
    end.

(** The table [interpreter_map] on a POSIX host: [None] for a suffix
    that is not a key, [Some None] for the key ['.bat'], whose value is
    [None] there. *)
Definition interpreter_map (ext : string) : option (option (list string)) :=
  if String.eqb ext ".py" then Some (Some ["python3"])
  else if String.eqb ext ".sh" then Some (Some ["bash"])
  else if String.eqb ext ".js" then Some (Some ["node"])
  else if String.eqb ext ".rb" then Some (Some ["ruby"])
  else if String.eqb ext ".pl" then Some (Some ["perl"])
  else if String.eqb ext ".ps1" then Some (Some ["pwsh"])
  else if String.eqb ext ".bat" then Some None
  else None.

(** [result.stderr or result.stdout] *)
Definition diagnostics (r : CompletedProcess) : string :=
  if String.eqb (run_stderr r) "" then run_stdout r else run_stderr r.

(** The branch shared by C and C++ sources: a fresh build directory
    under the uploads root, one compiler run, the binary it leaves. *)
Definition compile_native (compiler label file_path : string)
    : M (list string * list string) :=
  modify ensure_upload_dir;;
  hex ← uuid4_hex;
  let build_dir := Paths.joinpath UPLOAD_DIR ("build_" +:+ hex) in
  modify (with_host (fun h => host_mkdir h build_dir));;
  let output_name := Paths.stem file_path in
  let output_path := Paths.joinpath build_dir output_name in
  let compile_cmd := [compiler; file_path; "-o"; output_path] in
  result ← subprocess_run compile_cmd;
  if negb (returncode result =? 0)%Z
  then raise (RuntimeError (label +:+ " compilation failed:" +:+ Py.nl +:+ diagnostics result))
  else
    modify (with_host (fun h => host_chmod_755 h output_path));;
    ret ([output_path], [build_dir]).

(** [build_execution_command]: the command parts and the cleanup paths. *)
Definition build_execution_command (file_path : string)
    : M (list string * list string) :=
  present ← gets (fun w => host_exists (host w) file_path);
  if negb present then raise (ValueError ("File not found: " +:+ file_path))
  else
    let ext := Py.lower (Paths.suffix file_path) in
    executable ← gets (fun w => host_access_x (host w) file_path);
    if executable && negb (bool_decide (is_Some (interpreter_map ext)))
    then ret ([file_path], [])
    else
      match interpreter_map ext with
      | Some (Some interpreter_cmd) =>
          found ← gets (fun w => host_which (host w) (List.hd "" interpreter_cmd));
          if negb found
          then raise (RuntimeError ("Required interpreter '"
                        +:+ List.hd "" interpreter_cmd +:+ "' not found on PATH."))
          else ret (interpreter_cmd ++ [file_path], [])
      | _ =>
          if String.eqb ext ".c" then compile_native "gcc" "C" file_path
          else if String.eqb ext ".cpp" || String.eqb ext ".cc" || String.eqb ext ".cxx"
          then compile_native "g++" "C++" file_path
          else if String.eqb ext ".java" then
            modify ensure_upload_dir;;
            hex ← uuid4_hex;
            let build_dir := Paths.joinpath UPLOAD_DIR ("build_" +:+ hex) in
            modify (with_host (fun h => host_mkdir h build_dir));;
            let compile_cmd := ["javac"; "-d"; build_dir; file_path] in
            result ← subprocess_run compile_cmd;
            if negb (returncode result =? 0)%Z
            then raise (RuntimeError ("Java compilation failed:" +:+ Py.nl
                          +:+ diagnostics result))
            else
              package_name ← gets (fun w => host_java_package (host w) file_path);
              let class_name := Paths.stem file_path in
              let fqcn := match package_name with
                          | Some pkg => if String.eqb pkg "" then class_name
                                        else pkg +:+ "." +:+ class_name
                          | None => class_name
                          end in
              ret (["java"; "-cp"; build_dir; fqcn], [build_dir])
          else raise (ValueError ("Unsupported file type: " +:+ Paths.suffix file_path))
      end.

(** [find_sandbox], away from macOS (no quarantine attribute). *)
Definition find_sandbox (h : H) : option string :=
  let script_dir := host_script_dir h in
  let paths := [ Paths.joinpath script_dir "sandbox";
                 Paths.joinpath script_dir "sandbox.exe";
                 Paths.joinpath (Paths.joinpath script_dir "build") "sandbox";
                 Paths.joinpath (Paths.joinpath (Paths.joinpath script_dir "build")
                                   "Release") "sandbox.exe";
                 "./sandbox";
                 "./sandbox.exe" ] in
  List.find (fun full_path => host_exists h full_path && host_access_x h full_path)
            (map (host_abspath h) paths).

(** The [limits] mapping: what [limits.get] returns for the four keys. *)
Record limits := {
  cpu : Py.value;
  memory : Py.value;
  processes : Py.value;
  file_size : Py.value;
}.

(** The [metadata] mapping. *)
Record metadata := {
  meta_uploaded_file : option string;
  meta_cleanup_paths : list string;
}.

(** The body of [launch_sandbox_process] up to [full_cmd.extend]. *)
Definition full_cmd_of (sandbox_path : string) (l : limits)
    (command_parts : list string) : list string :=
  let full_cmd := [sandbox_path] in
  let full_cmd := if Py.truthy (cpu l)
                  then full_cmd ++ ["--cpu=" +:+ Py.format (cpu l)] else full_cmd in
  let full_cmd := if Py.truthy (memory l)
                  then full_cmd ++ ["--mem=" +:+ Py.format (memory l)] else full_cmd in
  let full_cmd := if Py.truthy (processes l)
                  then full_cmd ++ ["--procs=" +:+ Py.format (processes l)] else full_cmd in
  let full_cmd := if Py.truthy (file_size l)
                  then full_cmd ++ ["--fsize=" +:+ Py.format (file_size l)] else full_cmd in
  full_cmd ++ command_parts.

(** [subprocess.Popen(full_cmd, ...)] *)
Definition popen (full_cmd : list string) : M Popen :=
  fun w =>
    match host_popen (host w) full_cmd with
    | Some (proc, h') =>
        (inr proc, record (Spawn full_cmd (pid proc)) (with_host (fun _ => h') w))
    | None => (inl (OSError ("cannot execute " +:+ List.hd "" full_cmd)), w)
    end.

(** [launch_sandbox_process].  The two threads it starts are
    [monitor_process], which only samples and emits metrics, and
    [stream_process_output] below. *)
Definition launch_sandbox_process (command_parts : list string) (l : limits)
    (md : metadata) : M (string * Z) :=
  sandbox_path ← gets (fun w => find_sandbox (host w));
  match sandbox_path with
  | None => raise (RuntimeError "Sandbox executable not found")
  | Some sandbox_path =>
      let full_cmd := full_cmd_of sandbox_path l command_parts in
      hex ← uuid4_hex;
      let process_id := "proc_" +:+ hex in
      proc ← popen full_cmd;
      now ← gets (fun w => host_time (host w));
      modify (with_processes (insert process_id
        {| process := proc;
           info_pid := pid proc;
           command := Py.join " " full_cmd;
           start_time := now;
           uploaded_file := meta_uploaded_file md;
           cleanup_paths := meta_cleanup_paths md |}));;
      ret (process_id, pid proc)
  end.

(** *** The upload and the [/api/analyze-run] route *)

(** [file_storage.save(destination)] *)
Definition storage_save (destination : string) : M unit :=
  fun w =>
    match host_save (host w) destination with
    | Some h' => (inr tt, with_host (fun _ => h') w)
    | None => (inl (OSError ("cannot write " +:+ destination)), w)
    end.

(** [save_uploaded_file]; [filename] is [file_storage.filename]. *)
Definition save_uploaded_file (filename : string) : M string :=
  modify ensure_upload_dir;;
  let secured := host_secure_filename filename in
  original_name ← (if String.eqb secured ""
                   then hex ← uuid4_hex; ret ("upload_" +:+ hex)
                   else ret secured);
  let suffix := Paths.suffix original_name in
  hex ← uuid4_hex;
  let unique_name := Paths.stem original_name +:+ "_" +:+ hex +:+ suffix in
  let destination := Paths.joinpath UPLOAD_DIR unique_name in
  storage_save destination;;
  ret destination.

(** The parts of the HTTP request the route reads: the name of the
    uploaded file part if there is one, and the form fields. *)
Record request := {
  file_part : option string;
  form_file_path : option string;
  form_cpu : option string;
  form_memory : option string;
  form_processes : option string;
  form_file_size : option string;
}.

Inductive response :=
| Launched (process_id : string) (child : Z) (analysis : string) (cmd : list string)
| Failed (status : nat) (error : string) (analysis : option string).

(** The [limits] mapping the route builds from the form. *)
Definition form_limits (r : request) : limits :=
  {| cpu := Py.or_none (form_cpu r);
     memory := Py.or_none (form_memory r);
     processes := Py.or_none (form_processes r);
     file_size := Py.or_none (form_file_size r) |}.

(** The second half of [analyze_and_run]: from [saved_path] resolved. *)
Definition analyze_then_launch (r : request) (uploaded : bool) (saved_path : string)
    (w : world H) : response * world H :=
  let analysis_result := host_analyze (host w) saved_path in
  let l := form_limits r in
  let attempt :=
    built ← build_execution_command saved_path;
    let '(command_parts, to_clean) := built in
    let md := {| meta_uploaded_file := if uploaded then Some saved_path else None;
                 meta_cleanup_paths := to_clean |} in
    started ← launch_sandbox_process command_parts l md;
    ret (Launched (fst started) (snd started) analysis_result command_parts) in
  match attempt w with
  | (inr ok, w') => (ok, w')
  | (inl e, w') =>
      let w'' := if uploaded && host_exists (host w') saved_path
                 then record (Unlink saved_path)
                        (with_host (fun h => host_unlink h saved_path) w')
                 else w' in
      (Failed 400 (exn_message e) (Some analysis_result), w'')
  end.

(** [analyze_and_run].  An exception that no handler of the route
    catches becomes the framework's status 500. *)
Definition analyze_and_run (r : request) (w : world H) : response * world H :=
  let filename := default "" (file_part r) in
  let manual_path := Py.strip (default "" (form_file_path r)) in
  let chosen : (response + (string * bool)) * world H :=
    if negb (String.eqb filename "") then
      match save_uploaded_file filename w with
      | (inr saved, w') => (inr (saved, true), w')
      | (inl e, w') =>
          (inl (Failed 500 ("Failed to save file: " +:+ exn_message e) None), w')
      end
    else if negb (String.eqb manual_path "") then
      let candidate := host_expanduser (host w) manual_path in
      match host_resolve (host w) candidate with
      | Some c =>
          if host_exists (host w) (Paths.to_string c)
          then (inr (Paths.to_string c, false), w)
          else (inl (Failed 400 ("File not found: " +:+ manual_path) None), w)
      | None => (inl (Failed 400 ("File not found: " +:+ manual_path) None), w)
      end
    else (inl (Failed 400 "No file provided" None), w) in
  match chosen with
  | (inl early, w') => (early, w')
  | (inr (saved_path, uploaded), w') =>
      match host_resolve (host w') saved_path with
      | Some c => analyze_then_launch r uploaded (Paths.to_string c) w'
      | None => (Failed 500 "Internal Server Error" None, w')
      end
  end.

(** *** Output streaming *)

(** The [for line in proc.stdout] loop with its [except]: the lines
    gathered in [output_lines], each one emitted as it is read. *)
Fixpoint read_lines (process_id : string) (pending : list read_result)
    (output_lines : list string) (w : world H) : list string * world H :=
  match pending with
  | [] => (output_lines, w)
  | Line line :: rest =>
      read_lines process_id rest (output_lines ++ [line])
        (emit (Output process_id (Py.rstrip_nl line)) w)
  | ReadFailure msg :: _ =>
      (output_lines, emit (Error ("Output stream error: " +:+ msg)) w)
  end.

(** [stream_process_output] *)
Definition stream_process_output (proc : Popen) (process_id : string)
    (w : world H) : world H :=
  let '(output_lines, w1) := read_lines process_id (stdout proc) [] w in
  let return_code := exit_code proc in
  let output := Py.join "" output_lines in
  let w2 := emit (ProcessComplete process_id return_code output) w1 in
  cleanup_process_resources process_id w2.

(** *** Input relay *)

(** A key of the message a browser sends: missing, [null], or a value. *)
Inductive field (A : Type) :=
| Absent
| Null
| Given (a : A).
Arguments Absent {A}.
Arguments Null {A}.
Arguments Given {A}.

Record input_message := {
  msg_process_id : field string;
  msg_text : field string;
  msg_append_newline : field bool;
}.

(** [data.get(key)] and [data.get(key, fallback)] *)
Definition get {A} (f : field A) : option A :=
  match f with Given a => Some a | _ => None end.

Definition get_or {A} (f : field A) (fallback : A) : option A :=
  match f with Absent => Some fallback | Null => None | Given a => Some a end.

(** The [try] block of [handle_send_input] on the pipe. *)
Definition write_and_flush (text : string) (append_newline : bool)
    (pipe : StdinPipe) : exn + StdinPipe :=
  match (if append_newline && negb (Py.endswith_nl text)
         then pipe_write pipe (text +:+ Py.nl)
         else pipe_write pipe text) with
  | inl e => inl e
  | inr pipe' => pipe_flush pipe'
  end.

(** [handle_send_input] *)
Definition handle_send_input (data : input_message) (w : world H) : world H :=
  let process_id := get (msg_process_id data) in
  let text := get_or (msg_text data) "" in
  match process_id, text with
  | Some process_id, Some text =>
      if String.eqb process_id "" then w
      else
        match running_processes w !! process_id with
        | None => w
        | Some proc_info =>
            let proc := process proc_info in
            match poll proc, stdin proc with
            | None, Some pipe =>
                let append_newline :=
                  default false (get_or (msg_append_newline data) true) in
                match write_and_flush text append_newline pipe with
                | inr pipe' =>
                    let proc' := {| pid := pid proc; exited := exited proc;
                                    exit_code := exit_code proc;
                                    stdin := Some pipe'; stdout := stdout proc |} in
                    with_processes (insert process_id
                      {| process := proc'; info_pid := info_pid proc_info;
                         command := command proc_info;
                         start_time := start_time proc_info;
                         uploaded_file := uploaded_file proc_info;
                         cleanup_paths := cleanup_paths proc_info |}) w
                | inl e =>
                    emit (Error ("Failed to send input: " +:+ exn_message e)) w
                end
            | _, _ => w
            end
        end
  | _, _ => w
  end.

End Program.

Arguments Absent {A}.
Arguments Null {A}.
Arguments Given {A}.

End Web.

(** ** The command-line front end, [cli.py] *)
Module Cli.

(** The [run] sub-command's namespace: each limit is an [int] or [None]. *)
Record args := {
  cpu : option Z;
  memory : option Z;
  processes : option Z;
  file_size : option Z;
  command : list string;
}.

Definition of_arg (a : option Z) : Py.value :=
  match a with
  | Some z => Py.PyInt z
  | None => Py.PyNone
  end.

(** The list [cmd] that [run_command] hands to [subprocess.run]. *)
Definition cmd_of (sandbox_path : string) (a : args) : list string :=
  let cmd := [sandbox_path] in
  let cmd := if Py.truthy (of_arg (cpu a))
             then cmd ++ ["--cpu=" +:+ Py.format (of_arg (cpu a))] else cmd in
  let cmd := if Py.truthy (of_arg (memory a))
             then cmd ++ ["--mem=" +:+ Py.format (of_arg (memory a))] else cmd in
  let cmd := if Py.truthy (of_arg (processes a))
             then cmd ++ ["--procs=" +:+ Py.format (of_arg (processes a))] else cmd in
  let cmd := if Py.truthy (of_arg (file_size a))
             then cmd ++ ["--fsize=" +:+ Py.format (of_arg (file_size a))] else cmd in
  cmd ++ command a.

End Cli.

(** ** The terminal of the desktop front end, [sandbox_test_gui.py] *)
Module Gui.

(** The fields of [SandboxTestGUI] that the prompt logic touches.
    [output_text] is the content of the text widget without the newline
    Tk keeps at its end; an index is a character offset into it. *)
Record terminal := {
  output_text : list ascii;
  input_start_marker : option nat;
  waiting_for_input : bool;
  is_running : bool;
}.

Definition chars (s : string) : list ascii := list_ascii_of_string s.

(** [output_text.insert(tk.END, s)] *)
Definition insert_end (s : list ascii) (t : terminal) : terminal :=
  {| output_text := output_text t ++ s;
     input_start_marker := input_start_marker t;
     waiting_for_input := waiting_for_input t;
     is_running := is_running t |}.

(** [output_text.delete(i, j)]: nothing when the range is empty. *)
Definition delete_range (i j : nat) (text : list ascii) : list ascii :=
  if (i <? j)%nat then take i text ++ drop j text else text.

(** [show_prompt] *)
Definition show_prompt (t : terminal) : terminal :=
  if negb (waiting_for_input t) && is_running t
  then
    let text := output_text t ++ chars "$ " in
    {| output_text := text;
       input_start_marker := Some (length text);
       waiting_for_input := true;
       is_running := is_running t |}
  else t.

(** The block under "If there's a prompt, remove it before adding
    output": the two characters before the marker go, and the marker
    with them. *)
Definition retract_prompt (t : terminal) : terminal :=
  match waiting_for_input t, input_start_marker t with
  | true, Some marker =>
      {| output_text := delete_range (marker - 2) marker (output_text t);
         input_start_marker := None;
         waiting_for_input := false;
         is_running := is_running t |}
  | _, _ => t
  end.

(** [log_output] *)
Definition log_output (s : string) (t : terminal) : terminal :=
  insert_end (chars s) (retract_prompt t).

(** One line arriving in the read loop of [_run_test_thread]: the loop
    retracts the prompt itself and then calls [log_output]. *)
Definition receive_line (line : string) (t : terminal) : terminal :=
  log_output line (retract_prompt t).

(** What the read loop sees: a line of output, or half a second of
    silence, after which it shows the prompt. *)
Inductive observation :=
| Produced (line : string)
| Silence.

Definition observe (t : terminal) (o : observation) : terminal :=
  match o with
  | Produced line => receive_line line t
  | Silence => show_prompt t
  end.

(** The output lines among the observations, concatenated in order. *)
Fixpoint transcript (obs : list observation) : list ascii :=
  match obs with
  | [] => []
  | Produced line :: rest => chars line ++ transcript rest
  | Silence :: rest => transcript rest
  end.

(** The terminal shows [shown], followed by the prompt exactly when it
    is waiting for input, with the marker right after the prompt. *)
Definition displays (shown : list ascii) (t : terminal) : Prop :=
  is_running t = true /\
  if waiting_for_input t
  then output_text t = shown ++ chars "$ "
       /\ input_start_marker t = Some (length (output_text t))
  else output_text t = shown.

End Gui.

(** ** A host to run the program on: a POSIX tree without symbolic links *)
Module Posix.
Import Web.

Inductive node :=
| RegularFile (executable : bool)
| Directory.

(** [tools] are the commands found on the search path; [toolchain] is
    how a compiler run ends; [programs] is what a spawned command prints
    and the status it ends with. *)
Record state := {
  cwd : Paths.canon;
  nodes : gmap Paths.canon node;
  tools : list string;
  toolchain : list string -> option CompletedProcess;
  programs : list string -> option (list read_result * Z);
  next_uuid : nat;
  next_pid : Z;
  clock : Z;
}.

Definition with_nodes (f : gmap Paths.canon node -> gmap Paths.canon node)
    (s : state) : state :=
  {| cwd := cwd s; nodes := f (nodes s); tools := tools s;
     toolchain := toolchain s; programs := programs s;
     next_uuid := next_uuid s; next_pid := next_pid s; clock := clock s |}.

Definition locate (s : state) (path : string) : Paths.canon :=
  Paths.lexical_resolve (cwd s) path.

(** Where the uploads root is on this host. *)
Definition uploads_root (s : state) : Paths.canon := locate s Web.UPLOAD_DIR.

Definition lookup_node (s : state) (path : string) : option node :=
  match locate s path with
  | [] => Some Directory
  | c => nodes s !! c
  end.

Definition exists_at (s : state) (path : string) : bool :=
  bool_decide (is_Some (lookup_node s path)).

Definition is_dir_at (s : state) (path : string) : bool :=
  match lookup_node s path with Some Directory => true | _ => false end.

Definition access_x_at (s : state) (path : string) : bool :=
  match lookup_node s path with
  | Some Directory | Some (RegularFile true) => true
  | _ => false
  end.

Definition make_directory (c : Paths.canon) (m : gmap Paths.canon node)
    : gmap Paths.canon node :=
  match m !! c with
  | Some _ => m
  | None => <[c := Directory]> m
  end.

(** [mkdir(parents=True, exist_ok=True)] *)
Definition mkdir_at (s : state) (path : string) : state :=
  let c := locate s path in
  with_nodes (fun m => foldr make_directory m
                         (filter (fun q => q ≠ []) (c :: Paths.parents c))) s.

Definition save_at (s : state) (path : string) : option state :=
  let c := locate s path in
  match c with
  | [] => None
  | _ =>
      if is_dir_at s (Paths.to_string (removelast c))
      then Some (with_nodes (insert c (RegularFile false)) s)
      else None
  end.

Definition chmod_755_at (s : state) (path : string) : state :=
  match lookup_node s path with
  | Some (RegularFile _) => with_nodes (insert (locate s path) (RegularFile true)) s
  | _ => s
  end.

Definition rmtree_at (s : state) (path : string) : state :=
  let c := locate s path in
  with_nodes (filter (fun entry => ¬ (c `prefix_of` entry.1))) s.

Definition unlink_at (s : state) (path : string) : state :=
  with_nodes (delete (locate s path)) s.

(** A compiler run that succeeds leaves the file named after [-o]. *)
Definition run_at (s : state) (cmd : list string) : option (CompletedProcess * state) :=
  match toolchain s cmd with
  | None => None
  | Some result =>
      Some (result,
            match cmd with
            | [_; _; "-o"; output_path] =>
                if (returncode result =? 0)%Z
                then with_nodes (insert (locate s output_path) (RegularFile true)) s
                else s
            | _ => s
            end)
  end.

Definition popen_at (s : state) (cmd : list string) : option (Popen * state) :=
  match programs s cmd with
  | None => None
  | Some (printed, status) =>
      Some ({| pid := next_pid s; exited := false; exit_code := status;
               stdin := Some {| closed := false; buffered := ""; delivered := "" |};
               stdout := printed |},
            {| cwd := cwd s; nodes := nodes s; tools := tools s;
               toolchain := toolchain s; programs := programs s;
               next_uuid := next_uuid s; next_pid := next_pid s + 1;
               clock := clock s |})
  end.

Definition uuid4_hex_at (s : state) : string * state :=
  ("u" +:+ pretty (next_uuid s),
   {| cwd := cwd s; nodes := nodes s; tools := tools s;
      toolchain := toolchain s; programs := programs s;
      next_uuid := S (next_uuid s); next_pid := next_pid s; clock := clock s |}).

#[export] Instance posix_host : Host state := {|
  host_resolve s path := Some (locate s path);
  host_abspath s path := Paths.to_string (locate s path);
  host_expanduser s path := path;
  host_exists := exists_at;
  host_is_dir := is_dir_at;
  host_access_x := access_x_at;
  host_which s tool := bool_decide (tool ∈ tools s);
  host_script_dir s := Paths.to_string (cwd s);
  host_time := clock;
  host_mkdir := mkdir_at;
  host_save := save_at;
  host_chmod_755 := chmod_755_at;
  host_rmtree := rmtree_at;
  host_unlink := unlink_at;
  host_run := run_at;
  host_popen := popen_at;
  host_uuid4_hex := uuid4_hex_at;
  host_secure_filename := Paths.name;
  host_analyze _ _ := "{}";
  host_java_package _ _ := None;
|}.

End Posix.

(** ** Vocabulary of the statements *)
Module Terms.
Import Web.

Section OnHost.
Context {H : Type} `{Host H}.

(** The resolved form of [path] is the uploads root or lies below it. *)
Definition resolves_within (h : H) (path : string) : Prop :=
  exists root resolved,
    host_resolve h UPLOAD_DIR = Some root /\
    host_resolve h path = Some resolved /\
    root `prefix_of` resolved.

(** The paths a session has on record for cleanup. *)
Definition on_record (info : proc_info) (path : string) : Prop :=
  uploaded_file info = Some path \/ path ∈ cleanup_paths info.

End OnHost.

Definition is_deletion (e : effect) : Prop :=
  match e with
  | Rmtree _ | Unlink _ => True
  | _ => False
  end.

(** The completion events among some effects. *)
Fixpoint completions (es : list effect) : list event :=
  match es with
  | [] => []
  | Emit (ProcessComplete process_id return_code output) :: rest =>
      ProcessComplete process_id return_code output :: completions rest
  | _ :: rest => completions rest
  end.

(** A limit set as the specification has it: each of the four limits is
    absent or a positive integer. *)
Record limit_set := {
  cpu_seconds : option positive;
  memory_mb : option positive;
  max_processes : option positive;
  file_size_mb : option positive;
}.

(** The flags of a limit set, in the order of the usage line. *)
Definition flag (option_text : string) (limit : option positive) : list string :=
  match limit with
  | Some n => [option_text +:+ pretty (Z.pos n)]
  | None => []
  end.

Definition flags (L : limit_set) : list string :=
  flag "--cpu=" (cpu_seconds L) ++ flag "--mem=" (memory_mb L)
  ++ flag "--procs=" (max_processes L) ++ flag "--fsize=" (file_size_mb L).

(** How a limit reaches the launcher: as an integer (JSON body) or as
    the text of a form field. *)
Inductive carrier := AsInt | AsText.

Definition carried (c : carrier) (limit : option positive) : Py.value :=
  match limit, c with
  | None, _ => Py.PyNone
  | Some n, AsInt => Py.PyInt (Z.pos n)
  | Some n, AsText => Py.PyStr (pretty (Z.pos n))
  end.

Definition web_limits (c1 c2 c3 c4 : carrier) (L : limit_set) : limits :=
  {| cpu := carried c1 (cpu_seconds L);
     memory := carried c2 (memory_mb L);
     processes := carried c3 (max_processes L);
     file_size := carried c4 (file_size_mb L) |}.

Definition cli_args (L : limit_set) (target : list string) : Cli.args :=
  {| Cli.cpu := Z.pos <$> cpu_seconds L;
     Cli.memory := Z.pos <$> memory_mb L;
     Cli.processes := Z.pos <$> max_processes L;
     Cli.file_size := Z.pos <$> file_size_mb L;
     Cli.command := target |}.

Definition is_digit (c : ascii) : bool :=
  let n := nat_of_ascii c in (48 <=? n)%nat && (n <=? 57)%nat.

(** The text of a positive integer: digits only, not all of them zero. *)
Definition positive_numeral (s : string) : bool :=
  let cs := list_ascii_of_string s in
  forallb is_digit cs && existsb (fun c => negb (Ascii.eqb c "0"%char)) cs.

(** A limit value the specification accepts: absent, a positive
    integer, or the text of one. *)
Definition acceptable (v : Py.value) : bool :=
  match v with
  | Py.PyNone => true
  | Py.PyInt z => (0 <? z)%Z
  | Py.PyStr s => positive_numeral s
  end.

(** The flag the launcher passes for a value of any kind. *)
Definition verbatim (option_text : string) (v : Py.value) : list string :=
  if Py.truthy v then [option_text +:+ Py.format v] else [].

Definition verbatim_flags (l : limits) : list string :=
  verbatim "--cpu=" (cpu l) ++ verbatim "--mem=" (memory l)
  ++ verbatim "--procs=" (processes l) ++ verbatim "--fsize=" (file_size l).

End Terms.

(** ** Concrete runs used to exercise the statements below *)
Module Scenario.
Import Web Posix.

Definition tree : gmap Paths.canon node :=
  list_to_map
    [ (["srv"], Directory);
      (["srv"; "app"], Directory);
      (["srv"; "app"; "sandbox"], RegularFile true);
      (["srv"; "app"; "hello.py"], RegularFile false);
      (["srv"; "app"; "uploads"], Directory);
      (["srv"; "app"; "uploads"; "build_u7"], Directory);
      (["srv"; "app"; "uploads"; "build_u7"; "prog"], RegularFile true);
      (["srv"; "app"; "uploads"; "prog_u6.c"], RegularFile false);
      (["etc"], Directory);
      (["etc"; "passwd"], RegularFile false) ].

(** The compiler rejects every source whose name starts with [bad]. *)
Definition compiler (cmd : list string) : option CompletedProcess :=
  match cmd with
  | _ :: source :: _ =>
      if String.prefix "bad" (Paths.name source)
      then Some {| returncode := 1; run_stdout := "";
                   run_stderr := "error: expected ';' before '}' token" |}
      else Some {| returncode := 0; run_stdout := ""; run_stderr := "" |}
  | _ => None
  end.

Definition greeter (cmd : list string) : option (list read_result * Z) :=
  Some ([Line ("name? " +:+ Py.nl); Line ("Nice to meet you, Ada." +:+ Py.nl)], 0%Z).

Definition machine : state :=
  {| cwd := ["srv"; "app"]; nodes := tree; tools := ["python3"; "gcc"];
     toolchain := compiler; programs := greeter;
     next_uuid := 0; next_pid := 4242; clock := 1000 |}.

Definition idle : world state :=
  World machine ∅ [].

Definition child : Popen :=
  {| pid := 4242; exited := false; exit_code := 3;
     stdin := Some {| closed := false; buffered := ""; delivered := "" |};
     stdout := [Line ("one" +:+ Py.nl); Line "two"] |}.

(** A session whose recorded cleanup paths include one that climbs out
    of the uploads root. *)
Definition session : proc_info :=
  {| process := child; info_pid := 4242;
     command := "/srv/app/sandbox /srv/app/uploads/build_u7/prog";
     start_time := 1000;
     uploaded_file := Some "/srv/app/uploads/prog_u6.c";
     cleanup_paths := ["uploads/build_u7"; "uploads/../../../etc"; "uploads"] |}.

Definition busy : world state :=
  World machine {[ "proc_u8" := session ]} [].

(** Limits no validation would let through. *)
Definition wild_limits : limits :=
  {| cpu := Py.PyInt (-5); memory := Py.PyStr "abc";
     processes := Py.PyNone; file_size := Py.PyNone |}.

Definition no_metadata : metadata :=
  {| meta_uploaded_file := None; meta_cleanup_paths := [] |}.

(** The machine once a uuid has been drawn, the child the sandbox
    command starts, and the machine once it runs. *)
Definition machine_with_token : state := snd (uuid4_hex_at machine).

Definition greeter_child : Popen :=
  {| pid := 4242; exited := false; exit_code := 0;
     stdin := Some {| closed := false; buffered := ""; delivered := "" |};
     stdout := [Line ("name? " +:+ Py.nl); Line ("Nice to meet you, Ada." +:+ Py.nl)] |}.

Definition machine_with_child : state :=
  {| cwd := ["srv"; "app"]; nodes := tree; tools := ["python3"; "gcc"];
     toolchain := compiler; programs := greeter;
     next_uuid := 1; next_pid := 4243; clock := 1000 |}.

(** An upload of a C source that does not compile. *)
Definition broken_upload : request :=
  {| file_part := Some "bad.c"; form_file_path := None;
     form_cpu := None; form_memory := None;
     form_processes := None; form_file_size := None |}.

(** The same session once its child has ended, and once its pipe has
    been closed under a child that still runs. *)
Definition ended_session : proc_info :=
  {| process := {| pid := 4242; exited := true; exit_code := 3;
                   stdin := Some {| closed := false; buffered := ""; delivered := "" |};
                   stdout := [] |};
     info_pid := 4242; command := command session; start_time := 1000;
     uploaded_file := None; cleanup_paths := [] |}.

Definition closed_session : proc_info :=
  {| process := {| pid := 4242; exited := false; exit_code := 3;
                   stdin := Some {| closed := true; buffered := ""; delivered := "" |};
                   stdout := [] |};
     info_pid := 4242; command := command session; start_time := 1000;
     uploaded_file := None; cleanup_paths := [] |}.

Definition ada : input_message :=
  {| msg_process_id := Given "proc_u8"; msg_text := Given "Ada";
     msg_append_newline := Absent |}.

Definition fresh_terminal : Gui.terminal :=
  {| Gui.output_text := []; Gui.input_start_marker := None;
     Gui.waiting_for_input := false; Gui.is_running := true |}.

End Scenario.

(** ** The other routes of the web dashboard *)
Module Routes.
Import Web.

(** The answer of [/api/run]. *)
Inductive run_response :=
| Started (process_id : string) (child : Z)
| Refused (status : nat) (error : string).

(** The JSON body of [/api/run]: what [data.get] returns for
    ['command'], ['args'] and ['limits']. *)
Record run_request := {
  run_command : Py.value;
  run_args : list string;
  run_limits : limits;
}.

(** The answer of [/api/analyze]. *)
Inductive analysis_response :=
| Analysed (result : string)
| Rejected (status : nat) (error : string).

(** The parts of the request [/api/analyze] reads: the name of the
    uploaded file part, if any, and the ['file_path'] of the JSON body. *)
Record analyze_request := {
  analyze_upload : option string;
  analyze_file_path : option string;
}.

(** One row of [/api/status]. *)
Record status_row := {
  row_process_id : string;
  row_pid : Z;
  row_command : string;
}.

(** [os.path.join(a, b)] on a POSIX host, for a first part that does not
    end in a slash. *)
Definition os_path_join (a b : string) : string :=
  if Paths.is_absolute b then b else a +:+ "/" +:+ b.

Section Routes.
Context {H : Type} `{Host H}.

(** [metadata={}] *)
Definition empty_metadata : metadata :=
  {| meta_uploaded_file := None; meta_cleanup_paths := [] |}.

(** [run_sandbox].  [shlex_split] stands for [shlex.split], which raises
    on unbalanced quotes.  A command that is neither missing nor a string
    is put in the list as it is, and [Popen] then refuses the list. *)
Definition run_sandbox (shlex_split : string -> exn + list string)
    (r : run_request) (w : world H) : run_response * world H :=
  let required := "Command is required. Please enter a command to execute." in
  match run_command r with
  | Py.PyNone => (Refused 400 required, w)
  | Py.PyInt z =>
      if (z =? 0)%Z then (Refused 400 required, w)
      else
        match find_sandbox (host w) with
        | None => (Refused 500 "Sandbox executable not found", w)
        | Some _ =>
            (Refused 500 "expected str, bytes or os.PathLike object, not int",
             with_host (fun h => snd (host_uuid4_hex h)) w)
        end
  | Py.PyStr command =>
      if String.eqb (Py.strip command) "" then (Refused 400 required, w)
      else
        match shlex_split command with
        | inl e => (Refused 500 (exn_message e), w)
        | inr command_parts =>
            match launch_sandbox_process (command_parts ++ run_args r)
                    (run_limits r) empty_metadata w with
            | (inr (process_id, child), w') => (Started process_id child, w')
            | (inl e, w') => (Refused 500 (exn_message e), w')
            end
        end
  end.

(** [get_status]: one row for each registered session whose process has
    not ended.  The rows come in the order of the registry's keys, not in
    the order the sessions were started. *)
Definition get_status (w : world H) : list status_row :=
  omap (fun entry : string * proc_info =>
          match poll (process entry.2) with
          | None => Some {| row_process_id := entry.1;
                            row_pid := info_pid entry.2;
                            row_command := command entry.2 |}
          | Some _ => None
          end)
       (map_to_list (running_processes w)).

(** [analyze_code].  A failing [file.save] is not caught by the route and
    becomes the framework's status 500. *)
Definition analyze_code (r : analyze_request) (w : world H)
    : analysis_response * world H :=
  match analyze_upload r with
  | None =>
      match analyze_file_path r with
      | Some file_path =>
          if negb (String.eqb file_path "") && host_exists (host w) file_path
          then (Analysed (host_analyze (host w) file_path), w)
          else (Rejected 400 "No file provided", w)
      | None => (Rejected 400 "No file provided", w)
      end
  | Some filename =>
      if String.eqb filename "" then (Rejected 400 "No file selected", w)
      else
        let upload_dir := "uploads" in
        let w1 := with_host (fun h => host_mkdir h upload_dir) w in
        let file_path := os_path_join upload_dir filename in
        match host_save (host w1) file_path with
        | None => (Rejected 500 "Internal Server Error", w1)
        | Some h2 =>
            let w2 := with_host (fun _ => h2) w1 in
            let result := host_analyze (host w2) file_path in
            let w3 := if host_exists (host w2) file_path
                      then record (Unlink file_path)
                             (with_host (fun h => host_unlink h file_path) w2)
                      else w2 in
            (Analysed result, w3)
        end
  end.

End Routes.

End Routes.

(** ** The report of the static analyser, [code_analyzer.py] *)
Module Analyzer.

(** One entry of [self.vulnerabilities] or [self.warnings]. *)
Record finding := {
  kind : string;
  severity : string;
  line : nat;
  message : string;
  code : string;
}.

(** The state of a [CodeAnalyzer] after the checks have run. *)
Record analyzer := {
  vulnerabilities : list finding;
  warnings : list finding;
  info : list finding;
}.

Record report := {
  report_file : string;
  total_issues : nat;
  critical : nat;
  high : nat;
  medium : nat;
  report_vulnerabilities : list finding;
  report_warnings : list finding;
  report_info : list finding;
}.

(** [sum(1 for v in findings if v['severity'] == level)] *)
Definition count_level (level : string) (findings : list finding) : nat :=
  length (filter (fun v => severity v = level) findings).

(** [_generate_report] *)
Definition _generate_report (self : analyzer) (file_path : string) : report :=
  {| report_file := file_path;
     total_issues := length (vulnerabilities self) + length (warnings self);
     critical := count_level "CRITICAL" (vulnerabilities self);
     high := count_level "HIGH" (vulnerabilities self);
     medium := count_level "MEDIUM" (vulnerabilities self ++ warnings self);
     report_vulnerabilities := vulnerabilities self;
     report_warnings := warnings self;
     report_info := info self |}.

(** What [analyze_file] returns: a report, or a mapping with the single
    key ['error']. *)
Inductive analysis :=
| Report (r : report)
| ErrorOnly (error : string).

(** How [analyze_command] of [cli.py] ends: with an exit status, or with
    the [KeyError] of a key it reads and the mapping lacks. *)
Inductive ending :=
| Exit (status : Z)
| KeyError (key : string).

(** [analyze_command], its printing left out: the first key it reads is
    ['total_issues']. *)
Definition analyze_command (result : analysis) : ending :=
  match result with
  | ErrorOnly _ => KeyError "total_issues"
  | Report r => Exit (if (total_issues r =? 0)%nat then 0 else 1)
  end.

(** The findings the three counters of the report leave out: a
    vulnerability whose level is none of the three, and a warning that is
    not MEDIUM. *)
Definition uncounted (self : analyzer) : nat :=
  length (filter (fun v => severity v <> "CRITICAL" /\ severity v <> "HIGH"
                           /\ severity v <> "MEDIUM") (vulnerabilities self))
  + length (filter (fun v => severity v <> "MEDIUM") (warnings self)).

End Analyzer.

(** ** More vocabulary *)
Module Notions.
Import Web.

(** The lines read from a child's output before the first read error. *)
Fixpoint lines_read (pending : list read_result) : list string :=
  match pending with
  | Line text :: rest => text :: lines_read rest
  | _ => []
  end.

(** Every line the child wrote, whether the read loop got to it or not. *)
Fixpoint lines_written (pending : list read_result) : list string :=
  match pending with
  | [] => []
  | Line text :: rest => text :: lines_written rest
  | ReadFailure _ :: rest => lines_written rest
  end.

(** The error event of the first read error on a stream, if there is one. *)
Fixpoint failure_notice (pending : list read_result) : list effect :=
  match pending with
  | [] => []
  | Line _ :: rest => failure_notice rest
  | ReadFailure msg :: _ => [Emit (Error ("Output stream error: " +:+ msg))]
  end.

Definition is_spawn (e : effect) : Prop :=
  match e with
  | Spawn _ _ => True
  | _ => False
  end.

Definition is_emit (e : effect) : Prop :=
  match e with
  | Emit _ => True
  | _ => False
  end.

(** A limit value with the values the launcher treats as absent turned
    into [None]. *)
Definition settled (v : Py.value) : Py.value :=
  if Py.truthy v then v else Py.PyNone.

Definition settled_limits (l : limits) : limits :=
  {| cpu := settled (cpu l); memory := settled (memory l);
     processes := settled (processes l); file_size := settled (file_size l) |}.

(** The same for a limit of the command line. *)
Definition without_zero (a : option Z) : option Z :=
  match a with
  | Some 0%Z => None
  | _ => a
  end.

Definition settled_args (a : Cli.args) : Cli.args :=
  {| Cli.cpu := without_zero (Cli.cpu a);
     Cli.memory := without_zero (Cli.memory a);
     Cli.processes := without_zero (Cli.processes a);
     Cli.file_size := without_zero (Cli.file_size a);
     Cli.command := Cli.command a |}.

Section OnHost.
Context {H : Type} `{Host H}.

(** A computation that touches the host only: the registry and the
    effects come out as they went in, whether it returns or raises. *)
Definition host_only {A : Type} (c : world H -> (exn + A) * world H) : Prop :=
  forall w, running_processes (c w).2 = running_processes w
            /\ effects (c w).2 = effects w.

(** The places [find_sandbox] looks in, in order. *)
Definition candidates (h : H) : list string :=
  map (host_abspath h)
    [ Paths.joinpath (host_script_dir h) "sandbox";
      Paths.joinpath (host_script_dir h) "sandbox.exe";
      Paths.joinpath (Paths.joinpath (host_script_dir h) "build") "sandbox";
      Paths.joinpath (Paths.joinpath (Paths.joinpath (host_script_dir h) "build")
                        "Release") "sandbox.exe";
      "./sandbox";
      "./sandbox.exe" ].

End OnHost.

End Notions.

(** ** The rest of the terminal: stopping, clearing, the idle hint *)
Module Console.
Import Gui.

Definition quote : string := String "034"%char "".

(** The three texts [show_ready_message] and [stop_test] write. *)
Definition IDLE_HINT : string :=
  Py.nl +:+ "üí° Sandbox idle. Select a file and click " +:+ quote +:+
  "Analyze & Run in Sandbox" +:+ quote +:+ " to start again." +:+ Py.nl.

Definition INTRO : string :=
  "üßä ZenCube Sandbox Studio" +:+ Py.nl +:+ "-------------------------" +:+
  Py.nl +:+ "1. Click " +:+ quote +:+ "üìÅ Browse File" +:+ quote +:+
  " to choose the code you want to test." +:+ Py.nl +:+
  "2. (Optional) Adjust CPU, memory, process, or file limits." +:+ Py.nl +:+
  "3. Press " +:+ quote +:+ "Analyze & Run in Sandbox" +:+ quote +:+
  " to scan and execute." +:+ Py.nl +:+
  "Tip: Works with Python, Java, C/C++, Shell, JavaScript, Ruby, and more." +:+
  Py.nl +:+ Py.nl.

Definition STOPPED : string :=
  Py.nl +:+ Py.nl +:+ "‚ö† Test stopped by user" +:+ Py.nl.

(** The warning [stop_test] writes when the process cannot be
    terminated, for the text [exc] of the exception. *)
Definition termination_warning (exc : string) : string :=
  Py.nl +:+ "[Warning: Unable to terminate process cleanly: " +:+ exc +:+ "]" +:+ Py.nl.

(** Whether [content.strip()] is a non-empty text. *)
Definition visible (text : list ascii) : bool :=
  negb (Py.blank (string_of_list_ascii text)).

(** [show_ready_message] *)
Definition show_ready_message (t : terminal) : terminal :=
  if is_running t then t
  else if visible (output_text t) then log_output IDLE_HINT t
  else log_output INTRO t.

(** [clear_output] *)
Definition clear_output (show_ready : bool) (t : terminal) : terminal :=
  let cleared := {| output_text := []; input_start_marker := None;
                    waiting_for_input := false; is_running := is_running t |} in
  if show_ready && negb (is_running cleared) then show_ready_message cleared
  else cleared.

(** [stop_test].  [terminate_error] is the text of the exception that
    [current_process.terminate()] raised, [None] when there was no live
    process to terminate or the call went through. *)
Definition stop_test (terminate_error : option string) (t : terminal) : terminal :=
  if negb (is_running t) then t
  else
    let t1 := {| output_text := output_text t;
                 input_start_marker := input_start_marker t;
                 waiting_for_input := waiting_for_input t;
                 is_running := false |} in
    let t2 := match terminate_error with
              | Some exc => log_output (termination_warning exc) t1
              | None => t1
              end in
    let t3 := {| output_text := output_text t2;
                 input_start_marker := input_start_marker t2;
                 waiting_for_input := false;
                 is_running := is_running t2 |} in
    show_ready_message (log_output STOPPED t3).

End Console.

(** ** More concrete runs *)
Module Cases.
Import Web Posix Scenario Routes.

(** A machine on which the sandbox binary has not been built. *)
Definition bare_machine : state :=
  {| cwd := ["srv"; "app"]; nodes := delete ["srv"; "app"; "sandbox"] tree;
     tools := ["python3"; "gcc"]; toolchain := compiler; programs := greeter;
     next_uuid := 0; next_pid := 4242; clock := 1000 |}.

Definition bare : world state := World bare_machine ∅ [].

Definition greet : list string := ["python3"; "hello.py"].

(** The world once [greet] has been launched from [idle]. *)
Definition started : world state :=
  snd (launch_sandbox_process greet wild_limits no_metadata idle).

(** A splitter that knows blanks only, in the place of [shlex.split]. *)
Definition words (command : string) : exn + list string :=
  inr (String.words command).

Definition unlimited : limits :=
  {| cpu := Py.PyNone; memory := Py.PyNone;
     processes := Py.PyNone; file_size := Py.PyNone |}.

Definition run_greet : run_request :=
  {| run_command := Py.PyStr "python3 hello.py"; run_args := [];
     run_limits := unlimited |}.

Definition ran : world state := snd (run_sandbox words run_greet idle).

Definition blank_run : run_request :=
  {| run_command := Py.PyStr "   "; run_args := ["-v"]; run_limits := unlimited |}.

Definition upload_for_analysis : analyze_request :=
  {| analyze_upload := Some "prog_u6.c"; analyze_file_path := None |}.

(** A request that names a script by path and uploads nothing. *)
Definition path_request : request :=
  {| file_part := None; form_file_path := Some " hello.py ";
     form_cpu := Some "5"; form_memory := None;
     form_processes := None; form_file_size := None |}.


(** The world once the program of the session of [busy] has been built
    again from its source. *)
Definition rebuilt : (exn + (list string * list string)) * world state :=
  build_execution_command "/srv/app/uploads/prog_u6.c" idle.

Definition prompted : Gui.terminal :=
  Gui.show_prompt fresh_terminal.

(** A child that writes a line, then bytes that are not UTF-8, then
    another line, and ends on its own with status 0. *)
Definition garbled : Popen :=
  {| pid := 4242; exited := true; exit_code := 0;
     stdin := Some {| closed := false; buffered := ""; delivered := "" |};
     stdout := [Line ("ok" +:+ Py.nl);
                ReadFailure "'utf-8' codec can't decode byte 0xff in position 0: invalid start byte";
                Line ("more" +:+ Py.nl)] |}.

Definition garbled_session : proc_info :=
  {| process := garbled; info_pid := 4242;
     command := "/srv/app/sandbox python3 hello.py"; start_time := 1000;
     uploaded_file := None; cleanup_paths := [] |}.

Definition garbling : world state :=
  World machine {[ "proc_u8" := garbled_session ]} [].

(** A command of white space that is not blanks: U+001C, U+00A0, U+3000. *)
Definition separators : string :=
  String "028"%char
    (String "194"%char (String "160"%char
       (String "227"%char (String "128"%char (String "128"%char ""))))).

Definition separator_run : run_request :=
  {| run_command := Py.PyStr separators; run_args := []; run_limits := unlimited |}.

End Cases.

(** * Properties *)

(** ** The helpers on sample inputs *)
Section Samples.
Import Posix.

Example lexical_resolve_climbs_out :
  Paths.lexical_resolve ["srv"; "app"] "uploads/../../etc" = ["srv"; "etc"].
Proof. reflexivity. Qed.

Example parents_of_three :
  Paths.parents ["a"; "b"; "c"] = [["a"; "b"]; ["a"]; []].
Proof. reflexivity. Qed.

Example stem_and_suffix :
  (Paths.stem "uploads/bad_u0.c", Paths.suffix "uploads/bad_u0.c",
   Paths.suffix "a.tar.gz", Paths.suffix ".bashrc", Paths.suffix "Makefile")
  = ("bad_u0", ".c", ".gz", "", "").
Proof. reflexivity. Qed.

Example newline_helpers :
  (Py.endswith_nl ("Ada" +:+ Py.nl), Py.endswith_nl "Ada", Py.endswith_nl "",
   Py.rstrip_nl ("one" +:+ Py.nl +:+ Py.nl), Py.rstrip_nl (Py.nl +:+ "one"))
  = (true, false, false, "one", Py.nl +:+ "one").
Proof. reflexivity. Qed.

Example strip_takes_white_space :
  (Py.strip " hello.py ", Py.strip (String "009"%char "a b" +:+ Py.nl),
   Py.strip Cases.separators,
   Py.strip (String "194"%char (String "133"%char "")),
   Py.strip (Cases.separators +:+ "à b" +:+ Cases.separators),
   Py.strip (String "160"%char ""), Py.strip (String "226"%char (String "128"%char "")))
  = ("hello.py", "a b", "", "", "à b",
     String "160"%char "", String "226"%char (String "128"%char "")).
Proof. reflexivity. Qed.

Example formatted_values :
  (Py.format (Py.PyInt (-5)), Py.format (Py.PyStr "abc"), Py.truthy (Py.PyInt 0),
   Py.truthy (Py.PyStr ""), Py.or_none (Some ""), Py.or_none (Some "5"))
  = ("-5", "abc", false, false, Py.PyNone, Py.PyStr "5").
Proof. reflexivity. Qed.

Example cleanup_at_busy :
  Web.effects (Web.cleanup_process_resources "proc_u8" Scenario.busy)
  = [Web.Unlink "/srv/app/uploads/prog_u6.c"; Web.Rmtree "uploads/build_u7";
     Web.Rmtree "uploads"]
  /\ Posix.nodes (Web.host (Web.cleanup_process_resources "proc_u8" Scenario.busy))
       !! ["etc"; "passwd"] = Some (Posix.RegularFile false)
  /\ Posix.nodes (Web.host (Web.cleanup_process_resources "proc_u8" Scenario.busy))
       !! ["srv"; "app"; "uploads"] = None.
Proof. vm_compute. repeat split; reflexivity. Qed.

Example input_after_exit :
  Web.handle_send_input Scenario.ada
    (Web.World Scenario.machine {[ "proc_u8" := Scenario.ended_session ]} [])
  = Web.World Scenario.machine {[ "proc_u8" := Scenario.ended_session ]} [].
Proof. reflexivity. Qed.

Example input_on_closed_pipe :
  Web.effects
    (Web.handle_send_input Scenario.ada
       (Web.World Scenario.machine {[ "proc_u8" := Scenario.closed_session ]} []))
  = [Web.Emit (Web.Error "Failed to send input: I/O operation on closed file.")].
Proof. reflexivity. Qed.

Example prompt_then_output :
  Gui.output_text
    (foldl Gui.observe Scenario.fresh_terminal
       [Gui.Silence; Gui.Produced "name? "; Gui.Silence])
  = Gui.chars "name? $ ".
Proof. reflexivity. Qed.

End Samples.

(** ** Paths *)
Section PathFacts.
Import Paths.

Lemma elem_of_proper_prefixes (c r : canon) :
  r ∈ proper_prefixes c <-> r `prefix_of` c /\ r <> c.
Proof.
  revert r. induction c as [|x c IH]; intros r; simpl.
  - split.
    + intros Hin. inversion Hin.
    + intros [Hp Hne]. apply prefix_nil_inv in Hp. contradiction.
  - rewrite elem_of_cons, list_elem_of_fmap. split.
    + intros [-> | (r' & -> & Hin)].
      * split; [apply prefix_nil | discriminate].
      * apply IH in Hin as [Hp Hne]. split.
        -- by apply prefix_cons.
        -- congruence.
    + intros [Hp Hne]. destruct r as [|y r']; [by left | right].
      pose proof (prefix_cons_inv_1 _ _ _ _ Hp) as ->.
      apply prefix_cons_inv_2 in Hp.
      exists r'. split; [done |]. apply IH. split; [done | congruence].
Qed.

Lemma elem_of_parents (c r : canon) :
  r ∈ parents c <-> r `prefix_of` c /\ r <> c.
Proof. unfold parents. rewrite elem_of_reverse. apply elem_of_proper_prefixes. Qed.

End PathFacts.

(** ** The artifact janitor *)
Section Janitor.
Import Web Terms.
Context {H : Type} `{Host H}.

Lemma is_within_uploads_spec (h : H) (path : string) :
  is_within_uploads h path = true <-> resolves_within h path.
Proof.
  unfold is_within_uploads, resolves_within.
  destruct (host_resolve h UPLOAD_DIR) as [root|] eqn:Hroot;
    destruct (host_resolve h path) as [resolved|] eqn:Hpath.
  - rewrite orb_true_iff, !bool_decide_eq_true, elem_of_parents. split.
    + intros [[Hp _] | ->]; exists root; eauto.
    + intros (root' & resolved' & Hr & Hp & Hpre).
      injection Hr as <-. injection Hp as <-.
      destruct (decide (resolved = root)); [by right | by left].
  - split; [discriminate | intros (? & ? & _ & ? & _); discriminate].
  - split; [discriminate | intros (? & ? & ? & _ & _); discriminate].
  - split; [discriminate | intros (? & ? & ? & _ & _); discriminate].
Qed.

Lemma elem_of_paths_to_remove (h : H) (info : proc_info) (path : string) :
  path ∈ paths_to_remove h info ->
  on_record info path /\ is_within_uploads h path = true.
Proof.
  unfold paths_to_remove, on_record. rewrite elem_of_app. intros [Hin | Hin].
  - destruct (uploaded_file info) as [uploaded|]; [| by inversion Hin].
    destruct (negb (String.eqb uploaded "") && is_within_uploads h uploaded) eqn:Hok;
      [| by inversion Hin].
    apply list_elem_of_singleton in Hin as ->.
    apply andb_true_iff in Hok as [_ Hok]. auto.
  - apply list_elem_of_filter in Hin as [Hok Hin]. auto.
Qed.

Lemma cleanup_path_kept (h : H) (info : proc_info) (path : string) :
  path ∈ cleanup_paths info -> is_within_uploads h path = true ->
  path ∈ paths_to_remove h info.
Proof.
  intros Hin Hok. unfold paths_to_remove. apply elem_of_app. right.
  by apply list_elem_of_filter.
Qed.

Lemma remove_path_processes (w : world H) (path : string) :
  running_processes (remove_path w path) = running_processes w.
Proof. unfold remove_path. by repeat case_match. Qed.

Lemma remove_path_effects (w : world H) (path : string) :
  exists removed,
    effects (remove_path w path) = effects w ++ removed /\
    Forall (fun e => e = Rmtree path \/ e = Unlink path) removed.
Proof.
  unfold remove_path. repeat case_match; simpl.
  - exists [Rmtree path]. split; [done |]. constructor; auto.
  - exists [Unlink path]. split; [done |]. constructor; auto.
  - exists []. split; [by rewrite app_nil_r | constructor].
Qed.

Lemma remove_all_processes (paths : list string) (w : world H) :
  running_processes (foldl remove_path w paths) = running_processes w.
Proof.
  revert w. induction paths as [|p paths IH]; intros w; simpl; [done |].
  by rewrite IH, remove_path_processes.
Qed.

Lemma remove_all_effects (paths : list string) (w : world H) :
  exists removed,
    effects (foldl remove_path w paths) = effects w ++ removed /\
    Forall (fun e => exists p, p ∈ paths /\ (e = Rmtree p \/ e = Unlink p)) removed.
Proof.
  revert w. induction paths as [|p paths IH]; intros w; simpl.
  - exists []. split; [by rewrite app_nil_r | constructor].
  - destruct (IH (remove_path w p)) as (later & Heq & Hall).
    destruct (remove_path_effects w p) as (now & Hnow & Hnow_all).
    exists (now ++ later). split.
    + by rewrite Heq, Hnow, app_assoc.
    + apply Forall_app. split.
      * eapply Forall_impl; [exact Hnow_all |]. intros e He.
        exists p. split; [left | done].
      * eapply Forall_impl; [exact Hall |]. intros e (q & Hq & He).
        exists q. split; [by right | done].
Qed.

Lemma cleanup_unknown (process_id : string) (w : world H) :
  running_processes w !! process_id = None ->
  cleanup_process_resources process_id w = w.
Proof. intros Hnone. unfold cleanup_process_resources. by rewrite Hnone. Qed.

Lemma cleanup_unregisters (process_id : string) (w : world H) :
  running_processes (cleanup_process_resources process_id w)
  = delete process_id (running_processes w).
Proof.
  unfold cleanup_process_resources.
  destruct (running_processes w !! process_id) as [info|] eqn:Hinfo.
  - by rewrite remove_all_processes.
  - symmetry. by apply delete_id.
Qed.

(** C1: every deletion that [cleanup_process_resources] performs is of a
    path on the session's record whose resolved form is the uploads root
    or below it; a recorded path whose resolved form is elsewhere (or
    that does not resolve) is neither removed as a tree nor unlinked. *)
Theorem cleanup_confined_to_uploads
    (w : world H) (process_id : string) (info : proc_info) :
  running_processes w !! process_id = Some info ->
  exists removed,
    effects (cleanup_process_resources process_id w) = effects w ++ removed /\
    (forall e, e ∈ removed ->
       exists path, (e = Rmtree path \/ e = Unlink path) /\
                    on_record info path /\ resolves_within (host w) path) /\
    (forall path, on_record info path -> ~ resolves_within (host w) path ->
       (Rmtree path ∉ removed) /\ (Unlink path ∉ removed)).
Proof.
  intros Hinfo. unfold cleanup_process_resources. rewrite Hinfo. simpl.
  set (w1 := with_processes (delete process_id) w).
  destruct (remove_all_effects (paths_to_remove (host w) info) w1)
    as (removed & Heq & Hall).
  exists removed. split; [exact Heq |].
  assert (Hsound : forall e, e ∈ removed ->
            exists path, (e = Rmtree path \/ e = Unlink path) /\
                         on_record info path /\ resolves_within (host w) path).
  { intros e He. rewrite Forall_forall in Hall.
    destruct (Hall e He) as (path & Hin & Hshape).
    apply elem_of_paths_to_remove in Hin as [Hrec Hok].
    exists path. split; [done |]. split; [done |].
    by apply is_within_uploads_spec. }
  split; [exact Hsound |].
  intros path _ Hout. split; intros Hin;
    destruct (Hsound _ Hin) as (path' & [Heq' | Heq'] & _ & Hwithin);
    try discriminate; injection Heq' as <-; contradiction.
Qed.

(** C7: [cleanup_process_resources] is idempotent: a second call on the
    same id returns the world unchanged (registry, files and effects),
    the id being off the registry after the first; and in any world where
    the id is not registered the call changes nothing. *)
Theorem cleanup_idempotent (process_id : string) (w : world H) :
  cleanup_process_resources process_id (cleanup_process_resources process_id w)
  = cleanup_process_resources process_id w
  /\ running_processes (cleanup_process_resources process_id w) !! process_id = None
  /\ (forall later : world H,
        running_processes later !! process_id = None ->
        cleanup_process_resources process_id later = later).
Proof.
  assert (Hgone : running_processes (cleanup_process_resources process_id w)
                    !! process_id = None).
  { rewrite cleanup_unregisters. apply lookup_delete_eq. }
  split; [by apply cleanup_unknown |].
  split; [exact Hgone |].
  intros later. apply cleanup_unknown.
Qed.

(** C10: a path whose resolved form is the uploads root itself passes
    [is_within_uploads], and so is kept for removal when it is among a
    session's cleanup paths. *)
Theorem uploads_root_is_within
    (h : H) (info : proc_info) (path : string) (root : Paths.canon) :
  host_resolve h UPLOAD_DIR = Some root ->
  host_resolve h path = Some root ->
  is_within_uploads h path = true
  /\ (path ∈ cleanup_paths info -> path ∈ paths_to_remove h info).
Proof.
  intros Hroot Hpath.
  assert (Hok : is_within_uploads h path = true).
  { unfold is_within_uploads. rewrite Hroot, Hpath.
    apply orb_true_iff. right. by apply bool_decide_eq_true. }
  split; [exact Hok |]. intros Hin. by apply cleanup_path_kept.
Qed.

End Janitor.

(** ** The janitor on the POSIX host: what lies outside the uploads root *)
Section Spared.
Import Web Terms Posix.

Lemma posix_within (s : state) (path : string) :
  is_within_uploads s path = true -> uploads_root s `prefix_of` locate s path.
Proof.
  intros Hok. apply is_within_uploads_spec in Hok as (root & resolved & Hr & Hp & Hpre).
  simpl in Hr, Hp. injection Hr as <-. injection Hp as <-. exact Hpre.
Qed.

Lemma rmtree_spares (s : state) (path : string) (q : Paths.canon) :
  ~ locate s path `prefix_of` q ->
  nodes (rmtree_at s path) !! q = nodes s !! q.
Proof.
  intros Hout. unfold rmtree_at. simpl.
  rewrite map_lookup_filter. destruct (nodes s !! q) as [n|]; simpl; [| done].
  by rewrite option_guard_True.
Qed.

Lemma unlink_spares (s : state) (path : string) (q : Paths.canon) :
  locate s path <> q ->
  nodes (unlink_at s path) !! q = nodes s !! q.
Proof. intros Hne. unfold unlink_at. simpl. by apply lookup_delete_ne. Qed.

Lemma remove_path_spares (w : world state) (path : string) (q : Paths.canon) :
  uploads_root (host w) `prefix_of` locate (host w) path ->
  ~ uploads_root (host w) `prefix_of` q ->
  nodes (host (remove_path w path)) !! q = nodes (host w) !! q
  /\ cwd (host (remove_path w path)) = cwd (host w).
Proof.
  intros Hin Hout. unfold remove_path. simpl.
  destruct (is_dir_at (host w) path); [| destruct (exists_at (host w) path)]; simpl.
  - split; [| done]. apply rmtree_spares. intros Hpre. apply Hout.
    by transitivity (locate (host w) path).
  - split; [| done]. apply unlink_spares. intros <-. by apply Hout.
  - done.
Qed.

Lemma remove_all_spares (paths : list string) (w : world state) (q : Paths.canon) :
  Forall (fun p => uploads_root (host w) `prefix_of` locate (host w) p) paths ->
  ~ uploads_root (host w) `prefix_of` q ->
  nodes (host (foldl remove_path w paths)) !! q = nodes (host w) !! q.
Proof.
  revert w. induction paths as [|p paths IH]; intros w Hall Hout; simpl; [done |].
  apply Forall_cons in Hall as [Hp Hall].
  destruct (remove_path_spares w p q Hp Hout) as [Hsame Hcwd].
  rewrite <- Hsame. apply IH.
  - eapply Forall_impl; [exact Hall |]. intros p'.
    unfold uploads_root, locate. by rewrite Hcwd.
  - unfold uploads_root, locate. by rewrite Hcwd.
Qed.

(** On a tree without symbolic links, [cleanup_process_resources] leaves
    every node that is not under the uploads root as it was. *)
Theorem cleanup_spares_outside (process_id : string) (w : world state) (q : Paths.canon) :
  ~ uploads_root (host w) `prefix_of` q ->
  nodes (host (cleanup_process_resources process_id w)) !! q = nodes (host w) !! q.
Proof.
  intros Hout. unfold cleanup_process_resources.
  destruct (running_processes w !! process_id) as [info|]; [| done].
  apply (remove_all_spares _ (with_processes (delete process_id) w)); [| exact Hout].
  apply Forall_forall. intros p Hp.
  apply elem_of_paths_to_remove in Hp as [_ Hok]. by apply posix_within.
Qed.

End Spared.

(** ** The output pump *)
Section Pump.
Import Web Terms Notions.
Context {H : Type} `{Host H}.

Lemma completions_app (es1 es2 : list effect) :
  completions (es1 ++ es2) = completions es1 ++ completions es2.
Proof.
  induction es1 as [|e es1 IH]; simpl; [done |].
  destruct e as [[]| | |]; simpl; by rewrite IH.
Qed.

Lemma completions_outputs (process_id : string) (lines : list string) :
  completions ((fun line => Emit (Output process_id (Py.rstrip_nl line))) <$> lines) = [].
Proof. induction lines as [|l lines IH]; simpl; [done | exact IH]. Qed.

Lemma completions_deletions (removed : list effect) :
  Forall is_deletion removed -> completions removed = [].
Proof.
  induction 1 as [|e removed He _ IH]; simpl; [done |].
  destruct e as [[]| | |]; simpl in *; done.
Qed.

(** The read loop: the lines before the first read error are kept and
    told, in order; the error, if any, is told last. *)
Lemma read_lines_told (process_id : string) (pending : list read_result)
    (acc : list string) (w : world H) :
  read_lines process_id pending acc w
  = (acc ++ lines_read pending,
     World (host w) (running_processes w)
           (effects w
            ++ ((fun line => Emit (Output process_id (Py.rstrip_nl line)))
                  <$> lines_read pending)
            ++ failure_notice pending)).
Proof.
  revert acc w. induction pending as [|[text|msg] rest IH]; intros acc w; simpl.
  - rewrite !app_nil_r. by destruct w.
  - rewrite IH. unfold emit, record. simpl. by rewrite <- !app_assoc.
  - by rewrite app_nil_r.
Qed.

Lemma completions_notice (pending : list read_result) :
  completions (failure_notice pending) = [].
Proof. induction pending as [|[text|msg] rest IH]; simpl; done. Qed.

Lemma lines_read_written (pending : list read_result) :
  failure_notice pending = [] -> lines_read pending = lines_written pending.
Proof.
  induction pending as [|[text|msg] rest IH]; simpl; [done | | done].
  intros Hnone. by rewrite IH.
Qed.

Lemma cleanup_effects (process_id : string) (w : world H) :
  exists removed,
    effects (cleanup_process_resources process_id w) = effects w ++ removed /\
    Forall is_deletion removed.
Proof.
  unfold cleanup_process_resources.
  destruct (running_processes w !! process_id) as [info|].
  - destruct (remove_all_effects (paths_to_remove (host w) info)
                (with_processes (delete process_id) w)) as (removed & Heq & Hall).
    exists removed. split; [exact Heq |].
    eapply Forall_impl; [exact Hall |].
    intros e (p & _ & [-> | ->]); exact I.
  - exists []. split; [by rewrite app_nil_r | constructor].
Qed.

(** C3 (amended): whatever the child's output stream does, the effects
    of [stream_process_output] are the output events of the lines read
    before the first read error, in order, then the error event if
    reading failed, then one completion event carrying the child's exit
    status and the concatenation of the lines read, then the deletions of
    one cleanup run.  The completion event is the only one; the world
    afterwards is that cleanup run applied to the world in which the
    event was sent, and the session is off the registry.  When reading
    never fails the lines read are all the lines the child wrote. *)
Theorem completion_carries_lines_read
    (proc : Popen) (process_id : string) (w : world H) :
  let told := ((fun line => Emit (Output process_id (Py.rstrip_nl line)))
                 <$> lines_read (stdout proc))
              ++ failure_notice (stdout proc) in
  let completed := ProcessComplete process_id (exit_code proc)
                     (Py.join "" (lines_read (stdout proc))) in
  let announced := World (host w) (running_processes w)
                         (effects w ++ told ++ [Emit completed]) in
  (exists removed,
     effects (stream_process_output proc process_id w)
       = effects w ++ told ++ [Emit completed] ++ removed /\
     Forall is_deletion removed /\
     completions (told ++ [Emit completed] ++ removed) = [completed]) /\
  stream_process_output proc process_id w
    = cleanup_process_resources process_id announced /\
  running_processes (stream_process_output proc process_id w) !! process_id = None /\
  (failure_notice (stdout proc) = [] ->
   lines_read (stdout proc) = lines_written (stdout proc)).
Proof.
  intros told completed announced.
  assert (Hrun : stream_process_output proc process_id w
                 = cleanup_process_resources process_id announced).
  { unfold stream_process_output. rewrite read_lines_told. simpl.
    unfold emit, record, announced, told. simpl. by rewrite <- !app_assoc. }
  split; [| split; [exact Hrun | split]].
  - destruct (cleanup_effects process_id announced) as (removed & Heq & Hdel).
    exists removed. split; [| split].
    + rewrite Hrun, Heq. unfold announced. simpl. by rewrite <- !app_assoc.
    + exact Hdel.
    + rewrite !completions_app. rewrite (completions_deletions removed Hdel).
      unfold told. by rewrite completions_app, completions_outputs, completions_notice.
  - rewrite Hrun, cleanup_unregisters. apply lookup_delete_eq.
  - apply lines_read_written.
Qed.

End Pump.

(** ** The input relay *)
Section Relay.
Import Web Terms.
Context {H : Type} `{Host H}.

(** C4: [handle_send_input] for an id that is not on the registry, or
    whose process has ended, returns the world as it was: nothing is
    written, nothing emitted, no entry changed. *)
Theorem send_input_to_gone_session
    (data : input_message) (process_id : string) (w : world H) :
  msg_process_id data = Given process_id ->
  (running_processes w !! process_id = None \/
   exists info, running_processes w !! process_id = Some info /\
                poll (process info) <> None) ->
  handle_send_input data w = w.
Proof.
  intros Hid Hgone. unfold handle_send_input. rewrite Hid. simpl.
  destruct (get_or (msg_text data) "") as [text|]; [| done].
  destruct (String.eqb process_id ""); [done |].
  destruct Hgone as [-> | (info & -> & Hpoll)]; [done |].
  destruct (poll (process info)); [done | contradiction].
Qed.

(** What the child is sent for [text] and the append-newline flag. *)
Lemma write_and_flush_open (text : string) (append_newline : bool) (pipe : StdinPipe) :
  closed pipe = false ->
  write_and_flush text append_newline pipe
  = inr {| closed := false; buffered := "";
           delivered := delivered pipe +:+
             (buffered pipe +:+
                (if append_newline && negb (Py.endswith_nl text)
                 then text +:+ Py.nl else text)) |}.
Proof.
  intros Hopen. unfold write_and_flush, pipe_write, pipe_flush. rewrite Hopen.
  by destruct (append_newline && negb (Py.endswith_nl text)).
Qed.

(** C5: for a live session with an open pipe, [handle_send_input]
    changes only that session's pipe: the child receives what was
    pending, then [text], then one newline if the flag is set and [text]
    does not end in one; nothing stays buffered; no event is emitted. *)
Theorem send_input_delivers
    (process_id text : string) (append_newline : bool)
    (info : proc_info) (pipe : StdinPipe) (w : world H) :
  process_id <> "" ->
  running_processes w !! process_id = Some info ->
  poll (process info) = None ->
  stdin (process info) = Some pipe ->
  closed pipe = false ->
  let data := {| msg_process_id := Given process_id; msg_text := Given text;
                 msg_append_newline := Given append_newline |} in
  let payload := if append_newline && negb (Py.endswith_nl text)
                 then text +:+ Py.nl else text in
  let pipe' := {| closed := false; buffered := "";
                  delivered := delivered pipe +:+ (buffered pipe +:+ payload) |} in
  exists info',
    handle_send_input data w
      = World (host w) (<[process_id := info']> (running_processes w)) (effects w) /\
    stdin (process info') = Some pipe' /\
    poll (process info') = None /\
    pid (process info') = pid (process info) /\
    stdout (process info') = stdout (process info) /\
    uploaded_file info' = uploaded_file info /\
    cleanup_paths info' = cleanup_paths info.
Proof.
  intros Hne Hinfo Hlive Hpipe Hopen data payload pipe'.
  unfold handle_send_input. simpl.
  apply String.eqb_neq in Hne. rewrite Hne, Hinfo, Hlive, Hpipe.
  rewrite write_and_flush_open by done. fold payload. fold pipe'.
  eexists. split; [reflexivity |]. simpl. repeat split; done.
Qed.

End Relay.

(** ** The launcher *)
Section Digits.

Lemma pretty_N_go_nonempty (x : N) (s : string) :
  s <> "" -> pretty_N_go x s <> "".
Proof.
  revert s. induction (N.lt_wf_0 x) as [x _ IH]; intros s Hs.
  destruct (decide (x = 0)%N) as [-> | Hx].
  - by rewrite pretty_N_go_0.
  - rewrite pretty_N_go_step by lia. apply IH; [| discriminate].
    apply N.div_lt; lia.
Qed.

Lemma pretty_pos_nonempty (n : positive) : pretty (Z.pos n) <> "".
Proof.
  unfold pretty, pretty_Z, pretty, pretty_positive, pretty, pretty_N.
  destruct (decide (N.pos n = 0)%N) as [Hz | _]; [discriminate |].
  rewrite pretty_N_go_step by lia. by apply pretty_N_go_nonempty.
Qed.

End Digits.

Section Launcher.
Import Web Terms.
Context {H : Type} `{Host H}.

Lemma truthy_carried (c : carrier) (n : positive) :
  Py.truthy (carried c (Some n)) = true.
Proof.
  destruct c; simpl; [done |].
  apply negb_true_iff, String.eqb_neq, pretty_pos_nonempty.
Qed.

Lemma format_carried (c : carrier) (n : positive) :
  Py.format (carried c (Some n)) = pretty (Z.pos n).
Proof. by destruct c. Qed.

(** One conditional [append] of the launcher, for a limit of the
    specification's kind. *)
Lemma append_flag (c : carrier) (name : string) (limit : option positive)
    (cmd : list string) :
  (if Py.truthy (carried c limit)
   then cmd ++ [name +:+ Py.format (carried c limit)]
   else cmd)
  = cmd ++ flag name limit.
Proof.
  destruct limit as [n|].
  - by rewrite truthy_carried, format_carried.
  - destruct c; simpl; by rewrite app_nil_r.
Qed.

(** C6: for a limit set [L] and a target command, the list the web
    launcher builds and the list the command-line front end builds are
    both the sandbox path, then the flags of the limits that are present,
    in the order cpu, mem, procs, fsize, then the target command. *)
Theorem invocation_layout
    (sandbox_path : string) (L : limit_set) (target : list string)
    (c1 c2 c3 c4 : carrier) :
  full_cmd_of sandbox_path (web_limits c1 c2 c3 c4 L) target
    = sandbox_path :: flags L ++ target
  /\ Cli.cmd_of sandbox_path (cli_args L target)
    = sandbox_path :: flags L ++ target.
Proof.
  split.
  - unfold full_cmd_of, web_limits, flags; cbn [cpu memory processes file_size].
    rewrite (append_flag c1 "--cpu="), (append_flag c2 "--mem="),
      (append_flag c3 "--procs="), (append_flag c4 "--fsize=").
    by rewrite <- !app_assoc.
  - unfold Cli.cmd_of, cli_args, flags. simpl.
    destruct L as [[a|] [b|] [c|] [d|]]; simpl; reflexivity.
Qed.

End Launcher.

Section Validation.
Import Web Terms.
Context {H : Type} `{Host H}.

Lemma full_cmd_of_verbatim (sandbox_path : string) (l : limits) (target : list string) :
  full_cmd_of sandbox_path l target = sandbox_path :: verbatim_flags l ++ target.
Proof.
  unfold full_cmd_of, verbatim_flags, verbatim.
  destruct (Py.truthy (cpu l)), (Py.truthy (memory l)),
    (Py.truthy (processes l)), (Py.truthy (file_size l)); reflexivity.
Qed.

(** C2, as the launcher behaves: limit values are not checked.  Whenever
    the sandbox binary is found and the system spawns the assembled
    command, the launch succeeds for any limit values at all: a session
    is registered under a new id, the child is spawned, and each limit
    whose value is truthy has been passed word for word as its flag
    while the others are left out. *)
Theorem launch_does_not_validate_limits
    (command_parts : list string) (l : limits) (md : metadata) (w : world H)
    (sandbox_path hex : string) (h1 h2 : H) (proc : Popen) :
  find_sandbox (host w) = Some sandbox_path ->
  host_uuid4_hex (host w) = (hex, h1) ->
  host_popen h1 (full_cmd_of sandbox_path l command_parts) = Some (proc, h2) ->
  let full_cmd := sandbox_path :: verbatim_flags l ++ command_parts in
  launch_sandbox_process command_parts l md w
  = (inr ("proc_" +:+ hex, pid proc),
     World h2
       (<["proc_" +:+ hex :=
            {| process := proc; info_pid := pid proc;
               command := Py.join " " full_cmd;
               start_time := host_time h2;
               uploaded_file := meta_uploaded_file md;
               cleanup_paths := meta_cleanup_paths md |}]> (running_processes w))
       (effects w ++ [Spawn full_cmd (pid proc)])).
Proof.
  intros Hsandbox Huuid Hpopen full_cmd.
  unfold full_cmd. rewrite <- full_cmd_of_verbatim.
  unfold launch_sandbox_process, mbind, M_bind, bind, gets, modify, ret,
    uuid4_hex, popen.
  rewrite Hsandbox, Huuid. simpl. rewrite Hpopen. reflexivity.
Qed.

End Validation.

Section Runs.
Import Web Terms Posix Scenario.

(** C2 as stated fails: a negative cpu limit and a memory limit that is
    not a number are both passed to the sandbox; the child is spawned
    and a session is registered. *)
Lemma unchecked_limits_are_launched :
  acceptable (cpu wild_limits) = false
  /\ acceptable (memory wild_limits) = false
  /\ fst (launch_sandbox_process ["python3"; "hello.py"] wild_limits no_metadata idle)
     = inr ("proc_u0", 4242%Z)
  /\ effects (snd (launch_sandbox_process ["python3"; "hello.py"]
                     wild_limits no_metadata idle))
     = [Spawn ["/srv/app/sandbox"; "--cpu=-5"; "--mem=abc"; "python3"; "hello.py"]
              4242%Z]
  /\ command <$> running_processes
                   (snd (launch_sandbox_process ["python3"; "hello.py"]
                           wild_limits no_metadata idle)) !! "proc_u0"
     = Some "/srv/app/sandbox --cpu=-5 --mem=abc python3 hello.py".
Proof. vm_compute. repeat split; reflexivity. Qed.

(** C3 as stated fails: a child that ends on its own with status 0
    after writing a line, bytes that cannot be decoded and another line
    gets one completion event, and that event carries the first line
    only, not all the child wrote. *)
Lemma completion_misses_unread_lines :
  effects (stream_process_output Cases.garbled "proc_u8" Cases.garbling)
  = [Emit (Output "proc_u8" "ok");
     Emit (Error "Output stream error: 'utf-8' codec can't decode byte 0xff in position 0: invalid start byte");
     Emit (ProcessComplete "proc_u8" 0 ("ok" +:+ Py.nl))]
  /\ Py.join "" (Notions.lines_written (stdout Cases.garbled))
     = "ok" +:+ Py.nl +:+ "more" +:+ Py.nl
  /\ completions (effects (stream_process_output Cases.garbled "proc_u8" Cases.garbling))
     <> [ProcessComplete "proc_u8" 0
           (Py.join "" (Notions.lines_written (stdout Cases.garbled)))].
Proof.
  split; [vm_compute; reflexivity |].
  split; [vm_compute; reflexivity |].
  vm_compute. discriminate.
Qed.

(** C8 on a run: an uploaded C source that does not compile is answered
    with status 400, no process is spawned, no session is registered and
    the upload is removed again, but the build directory made for the
    compilation stays in the uploads root. *)
Theorem failed_compilation_leaves_build_directory :
  fst (analyze_and_run broken_upload idle)
    = Failed 400 ("C compilation failed:" +:+ Py.nl
                    +:+ "error: expected ';' before '}' token") (Some "{}")
  /\ running_processes (snd (analyze_and_run broken_upload idle)) = ∅
  /\ effects (snd (analyze_and_run broken_upload idle))
     = [Unlink "/srv/app/uploads/bad_u0.c"]
  /\ host_exists (host (snd (analyze_and_run broken_upload idle)))
       "/srv/app/uploads/bad_u0.c" = false
  /\ host_exists (host idle) "uploads/build_u1" = false
  /\ host_is_dir (host (snd (analyze_and_run broken_upload idle)))
       "uploads/build_u1" = true.
Proof. vm_compute. repeat split; reflexivity. Qed.

End Runs.

(** ** The prompt of the desktop terminal *)
Section Prompt.
Import Gui.

Lemma retract_prompt_idle (t : terminal) :
  waiting_for_input t = false -> retract_prompt t = t.
Proof. intros Hidle. unfold retract_prompt. by rewrite Hidle. Qed.

Lemma retract_prompt_settles (t : terminal) :
  waiting_for_input (retract_prompt t) = false
  \/ input_start_marker (retract_prompt t) = None.
Proof.
  unfold retract_prompt.
  destruct (waiting_for_input t) eqn:Hw; [| by left].
  destruct (input_start_marker t) eqn:Hm; [by left | by right].
Qed.

Lemma retract_prompt_idempotent (t : terminal) :
  retract_prompt (retract_prompt t) = retract_prompt t.
Proof.
  destruct (retract_prompt_settles t) as [Hw | Hm].
  - by apply retract_prompt_idle.
  - unfold retract_prompt at 1. rewrite Hm. by destruct (waiting_for_input _).
Qed.

(** Deleting the two characters before the marker takes the prompt and
    nothing else, whatever follows it. *)
Lemma delete_prompt (before after : list ascii) :
  delete_range (length (before ++ chars "$ ") - 2) (length (before ++ chars "$ "))
    ((before ++ chars "$ ") ++ after)
  = before ++ after.
Proof.
  unfold delete_range. rewrite length_app. simpl.
  replace (length before + 2 - 2) with (length before) by lia.
  destruct (Nat.ltb_spec (length before) (length before + 2)) as [_ | Hge]; [| lia].
  rewrite <- app_assoc.
  rewrite take_app_length.
  rewrite app_assoc.
  replace (length before + 2) with (length (before ++ chars "$ "))
    by (rewrite length_app; reflexivity).
  by rewrite drop_app_length.
Qed.

Lemma show_prompt_displays (shown : list ascii) (t : terminal) :
  displays shown t -> displays shown (show_prompt t).
Proof.
  intros [Hrun Htext]. unfold show_prompt.
  destruct (waiting_for_input t) eqn:Hw; simpl.
  - split; [done |]. by rewrite Hw.
  - rewrite Hrun. simpl. split; [done |]. simpl. by rewrite Htext.
Qed.

Lemma retract_prompt_displays (shown : list ascii) (t : terminal) :
  displays shown t ->
  displays shown (retract_prompt t) /\ waiting_for_input (retract_prompt t) = false.
Proof.
  intros [Hrun Htext]. unfold retract_prompt.
  destruct (waiting_for_input t) eqn:Hw.
  - destruct Htext as [Htext Hmark]. rewrite Hmark. simpl.
    split; [| done]. split; [done |]. simpl.
    rewrite Htext. rewrite <- (app_nil_r (shown ++ chars "$ ")) at 3.
    rewrite delete_prompt. by rewrite app_nil_r.
  - split; [| done]. split; [done |]. by rewrite Hw.
Qed.

Lemma log_output_displays (shown : list ascii) (s : string) (t : terminal) :
  displays shown t ->
  displays (shown ++ chars s) (log_output s t)
  /\ waiting_for_input (log_output s t) = false.
Proof.
  intros Hd. apply retract_prompt_displays in Hd as [[Hrun Htext] Hw].
  rewrite Hw in Htext.
  unfold log_output, insert_end, displays. simpl. by rewrite Hw, Htext, Hrun.
Qed.

Lemma observe_displays (shown : list ascii) (o : observation) (t : terminal) :
  displays shown t -> displays (shown ++ transcript [o]) (observe t o).
Proof.
  intros Hd. destruct o as [line|]; simpl.
  - rewrite app_nil_r. unfold receive_line.
    apply log_output_displays. by apply retract_prompt_displays.
  - rewrite app_nil_r. by apply show_prompt_displays.
Qed.

Lemma transcript_app (obs1 obs2 : list observation) :
  transcript (obs1 ++ obs2) = transcript obs1 ++ transcript obs2.
Proof.
  induction obs1 as [|[line|] obs1 IH]; simpl; [done | | done].
  by rewrite IH, app_assoc.
Qed.

Lemma run_displays (obs : list observation) (shown : list ascii) (t : terminal) :
  displays shown t -> displays (shown ++ transcript obs) (foldl observe t obs).
Proof.
  revert shown t. induction obs as [|o obs IH]; intros shown t Hd.
  - simpl. by rewrite app_nil_r.
  - replace (transcript (o :: obs)) with (transcript [o] ++ transcript obs)
      by (symmetry; apply (transcript_app [o] obs)).
    rewrite app_assoc. apply IH. by apply observe_displays.
Qed.

(** C9: retracting the prompt twice is retracting it once; with no
    prompt shown it changes nothing and [log_output] only appends; with
    the prompt shown, [log_output] takes away the two prompt characters
    and appends; and over any run of output lines and silences the
    terminal holds the lines in the order they came, followed by the
    prompt exactly when it is waiting for input. *)
Theorem prompt_retraction_keeps_transcript
    (t : terminal) (s : string) (obs : list observation) :
  retract_prompt (retract_prompt t) = retract_prompt t
  /\ (waiting_for_input t = false ->
        retract_prompt t = t
        /\ output_text (log_output s t) = output_text t ++ chars s)
  /\ (waiting_for_input t = false -> is_running t = true ->
        output_text (show_prompt t) = output_text t ++ chars "$ "
        /\ waiting_for_input (show_prompt t) = true
        /\ output_text (log_output s (show_prompt t)) = output_text t ++ chars s
        /\ waiting_for_input (log_output s (show_prompt t)) = false)
  /\ (waiting_for_input t = false -> is_running t = true ->
        output_text (foldl observe t obs)
        = output_text t ++ transcript obs
          ++ (if waiting_for_input (foldl observe t obs) then chars "$ " else [])).
Proof.
  split; [apply retract_prompt_idempotent |].
  split.
  { intros Hidle. split; [by apply retract_prompt_idle |].
    unfold log_output. by rewrite retract_prompt_idle. }
  assert (Hstart : waiting_for_input t = false -> is_running t = true ->
                   displays (output_text t) t).
  { intros Hidle Hrun. split; [done |]. by rewrite Hidle. }
  split.
  - intros Hidle Hrun. specialize (Hstart Hidle Hrun).
    pose proof (show_prompt_displays _ _ Hstart) as Hshown.
    destruct (log_output_displays _ s _ Hshown) as [[_ Hlogged] Hquiet].
    rewrite Hquiet in Hlogged.
    unfold show_prompt in *. rewrite Hidle, Hrun in *. simpl in *.
    repeat split; done.
  - intros Hidle Hrun. specialize (Hstart Hidle Hrun).
    destruct (run_displays obs _ _ Hstart) as [_ Hend].
    destruct (waiting_for_input (foldl observe t obs)).
    + destruct Hend as [-> _]. by rewrite app_assoc.
    + by rewrite Hend, app_nil_r.
Qed.

End Prompt.

(** ** The statements above at the concrete runs *)
Section Instances.
Import Web Terms Posix Scenario.

Lemma cleanup_confined_to_uploads_at_busy :
  running_processes busy !! "proc_u8" = Some session
  /\ exists removed,
       effects (cleanup_process_resources "proc_u8" busy) = effects busy ++ removed /\
       (forall e, e ∈ removed ->
          exists path, (e = Rmtree path \/ e = Unlink path) /\
                       on_record session path /\ resolves_within (host busy) path) /\
       (forall path, on_record session path -> ~ resolves_within (host busy) path ->
          (Rmtree path ∉ removed) /\ (Unlink path ∉ removed)).
Proof.
  split; [vm_compute; reflexivity |].
  apply (cleanup_confined_to_uploads busy "proc_u8" session).
  vm_compute; reflexivity.
Defined.

Lemma uploads_root_is_within_at_machine :
  host_resolve machine UPLOAD_DIR = Some ["srv"; "app"; "uploads"]
  /\ host_resolve machine "uploads" = Some ["srv"; "app"; "uploads"]
  /\ is_within_uploads machine "uploads" = true
  /\ "uploads" ∈ paths_to_remove machine session.
Proof.
  assert (Hroot : host_resolve machine UPLOAD_DIR = Some ["srv"; "app"; "uploads"])
    by reflexivity.
  assert (Hpath : host_resolve machine "uploads" = Some ["srv"; "app"; "uploads"])
    by reflexivity.
  split; [exact Hroot |]. split; [exact Hpath |].
  destruct (uploads_root_is_within machine session "uploads"
              ["srv"; "app"; "uploads"] Hroot Hpath) as [Hwithin Hkept].
  split; [exact Hwithin |].
  apply Hkept. do 2 apply list_elem_of_further. apply list_elem_of_here.
Defined.

Lemma send_input_to_gone_session_at_busy :
  msg_process_id {| msg_process_id := Given "proc_u9"; msg_text := Given "Ada";
                    msg_append_newline := Absent |} = Given "proc_u9"
  /\ (running_processes busy !! "proc_u9" = None \/
      exists info, running_processes busy !! "proc_u9" = Some info /\
                   poll (process info) <> None)
  /\ handle_send_input {| msg_process_id := Given "proc_u9"; msg_text := Given "Ada";
                          msg_append_newline := Absent |} busy = busy.
Proof.
  split; [reflexivity |].
  split; [left; vm_compute; reflexivity |].
  apply (send_input_to_gone_session _ "proc_u9" busy); [reflexivity |].
  left. vm_compute; reflexivity.
Defined.

Lemma send_input_delivers_at_busy :
  "proc_u8" <> ""
  /\ running_processes busy !! "proc_u8" = Some session
  /\ poll (process session) = None
  /\ stdin (process session) = Some {| closed := false; buffered := ""; delivered := "" |}
  /\ exists info',
       handle_send_input {| msg_process_id := Given "proc_u8"; msg_text := Given "Ada";
                            msg_append_newline := Given true |} busy
         = World (host busy) (<["proc_u8" := info']> (running_processes busy))
                 (effects busy) /\
       stdin (process info')
         = Some {| closed := false; buffered := "";
                   delivered := "" +:+ ("" +:+ ("Ada" +:+ Py.nl)) |} /\
       poll (process info') = None /\
       pid (process info') = pid (process session) /\
       stdout (process info') = stdout (process session) /\
       uploaded_file info' = uploaded_file session /\
       cleanup_paths info' = cleanup_paths session.
Proof.
  split; [discriminate |]. split; [vm_compute; reflexivity |].
  split; [reflexivity |]. split; [reflexivity |].
  apply (send_input_delivers "proc_u8" "Ada" true session
           {| closed := false; buffered := ""; delivered := "" |} busy);
    first [discriminate | vm_compute; reflexivity].
Defined.

Lemma launch_does_not_validate_limits_at_idle :
  find_sandbox (host idle) = Some "/srv/app/sandbox"
  /\ host_uuid4_hex (host idle) = ("u0", machine_with_token)
  /\ host_popen machine_with_token
       (full_cmd_of "/srv/app/sandbox" wild_limits ["python3"; "hello.py"])
     = Some (greeter_child, machine_with_child)
  /\ fst (launch_sandbox_process ["python3"; "hello.py"] wild_limits no_metadata idle)
     = inr ("proc_u0", 4242%Z)
  /\ effects (snd (launch_sandbox_process ["python3"; "hello.py"]
                     wild_limits no_metadata idle))
     = [Spawn ("/srv/app/sandbox" :: verbatim_flags wild_limits
                 ++ ["python3"; "hello.py"]) 4242%Z].
Proof.
  assert (Hsandbox : find_sandbox (host idle) = Some "/srv/app/sandbox")
    by reflexivity.
  assert (Htoken : host_uuid4_hex (host idle) = ("u0", machine_with_token))
    by reflexivity.
  assert (Hchild : host_popen machine_with_token
                     (full_cmd_of "/srv/app/sandbox" wild_limits ["python3"; "hello.py"])
                   = Some (greeter_child, machine_with_child))
    by reflexivity.
  split; [exact Hsandbox |]. split; [exact Htoken |]. split; [exact Hchild |].
  rewrite (launch_does_not_validate_limits ["python3"; "hello.py"] wild_limits
             no_metadata idle "/srv/app/sandbox" "u0"
             machine_with_token machine_with_child greeter_child
             Hsandbox Htoken Hchild).
  split; reflexivity.
Defined.

Lemma prompt_retraction_keeps_transcript_at_fresh :
  Gui.waiting_for_input fresh_terminal = false
  /\ Gui.is_running fresh_terminal = true
  /\ Gui.output_text
       (Gui.log_output "name? " (Gui.show_prompt fresh_terminal))
     = Gui.chars "name? "
  /\ Gui.output_text
       (foldl Gui.observe fresh_terminal
          [Gui.Silence; Gui.Produced "a"; Gui.Silence; Gui.Silence; Gui.Produced "b"])
     = Gui.chars "ab".
Proof.
  split; [reflexivity |]. split; [reflexivity |].
  destruct (prompt_retraction_keeps_transcript fresh_terminal "name? "
              [Gui.Silence; Gui.Produced "a"; Gui.Silence; Gui.Silence;
               Gui.Produced "b"]) as (_ & _ & Hshown & Hrun).
  split.
  - exact (proj1 (proj2 (proj2 (Hshown eq_refl eq_refl)))).
  - exact (Hrun eq_refl eq_refl).
Defined.

End Instances.

(** * Further properties *)

(** ** The launcher, beyond its command line *)
Section LaunchFacts.
Import Web Terms Notions.
Context {H : Type} `{Host H}.

(** The three ways [launch_sandbox_process] can end. *)
Lemma launch_cases (command_parts : list string) (l : limits) (md : metadata)
    (w : world H) :
  match find_sandbox (host w) with
  | None =>
      launch_sandbox_process command_parts l md w
      = (inl (RuntimeError "Sandbox executable not found"), w)
  | Some sandbox_path =>
      let full_cmd := full_cmd_of sandbox_path l command_parts in
      match host_popen (host_uuid4_hex (host w)).2 full_cmd with
      | None =>
          launch_sandbox_process command_parts l md w
          = (inl (OSError ("cannot execute " +:+ List.hd "" full_cmd)),
             World (host_uuid4_hex (host w)).2 (running_processes w) (effects w))
      | Some (proc, h2) =>
          launch_sandbox_process command_parts l md w
          = (inr ("proc_" +:+ (host_uuid4_hex (host w)).1, pid proc),
             World h2
               (<["proc_" +:+ (host_uuid4_hex (host w)).1 :=
                    {| process := proc; info_pid := pid proc;
                       command := Py.join " " full_cmd;
                       start_time := host_time h2;
                       uploaded_file := meta_uploaded_file md;
                       cleanup_paths := meta_cleanup_paths md |}]>
                  (running_processes w))
               (effects w ++ [Spawn full_cmd (pid proc)]))
      end
  end.
Proof.
  unfold launch_sandbox_process, mbind, M_bind, bind, gets, modify, ret, raise,
    uuid4_hex, popen.
  destruct (find_sandbox (host w)) as [sandbox_path|]; [| reflexivity].
  destruct (host_uuid4_hex (host w)) as [hex h1]. simpl.
  destruct (host_popen h1 _) as [[proc h2]|]; reflexivity.
Qed.

(** X1: a launch that fails leaves the registry and the effects as they
    were: no session is registered and no child is spawned. *)
Theorem failed_launch_registers_nothing
    (command_parts : list string) (l : limits) (md : metadata) (w : world H)
    (e : exn) :
  fst (launch_sandbox_process command_parts l md w) = inl e ->
  running_processes (snd (launch_sandbox_process command_parts l md w))
    = running_processes w
  /\ effects (snd (launch_sandbox_process command_parts l md w)) = effects w.
Proof.
  pose proof (launch_cases command_parts l md w) as Hcases.
  destruct (find_sandbox (host w)) as [sandbox_path|].
  - simpl in Hcases. destruct (host_popen _ _) as [[proc h2]|].
    + rewrite Hcases. discriminate.
    + rewrite Hcases. done.
  - rewrite Hcases. done.
Qed.

(** X2: a launch that succeeds adds exactly one entry to the registry,
    under the id it returns: the entry holds the child's pid and the
    metadata it was given, every other id keeps the entry it had, and the
    one effect is the spawning of that child. *)
Theorem launch_registers_one_session
    (command_parts : list string) (l : limits) (md : metadata) (w w' : world H)
    (process_id : string) (child : Z) :
  launch_sandbox_process command_parts l md w = (inr (process_id, child), w') ->
  (exists info,
     running_processes w' !! process_id = Some info
     /\ info_pid info = child
     /\ pid (process info) = child
     /\ uploaded_file info = meta_uploaded_file md
     /\ cleanup_paths info = meta_cleanup_paths md)
  /\ (forall other, other <> process_id ->
        running_processes w' !! other = running_processes w !! other)
  /\ (exists sandbox_path,
        find_sandbox (host w) = Some sandbox_path
        /\ effects w' = effects w
             ++ [Spawn (sandbox_path :: verbatim_flags l ++ command_parts) child]).
Proof.
  intros Hrun.
  pose proof (launch_cases command_parts l md w) as Hcases.
  destruct (find_sandbox (host w)) as [sandbox_path|];
    [| rewrite Hcases in Hrun; discriminate].
  simpl in Hcases. destruct (host_popen _ _) as [[proc h2]|];
    [| rewrite Hcases in Hrun; discriminate].
  rewrite Hcases in Hrun. injection Hrun as <- <- <-. simpl.
  split; [| split].
  - eexists. rewrite lookup_insert_eq. split; [reflexivity |]. by simpl.
  - intros other Hne. by rewrite lookup_insert_ne.
  - exists sandbox_path. split; [done |]. by rewrite full_cmd_of_verbatim.
Qed.

(** X3: starting a session under an id that was free and then streaming
    its child to the end leaves the registry exactly as it was before the
    launch. *)
Theorem session_lifecycle_restores_registry
    (command_parts : list string) (l : limits) (md : metadata) (w w' : world H)
    (process_id : string) (child : Z) (proc : Popen) :
  launch_sandbox_process command_parts l md w = (inr (process_id, child), w') ->
  running_processes w !! process_id = None ->
  running_processes (stream_process_output proc process_id w') = running_processes w.
Proof.
  intros Hrun Hfree.
  pose proof (launch_cases command_parts l md w) as Hcases.
  destruct (find_sandbox (host w)) as [sandbox_path|];
    [| rewrite Hcases in Hrun; discriminate].
  simpl in Hcases. destruct (host_popen _ _) as [[proc' h2]|];
    [| rewrite Hcases in Hrun; discriminate].
  rewrite Hcases in Hrun. injection Hrun as <- <- <-.
  unfold stream_process_output.
  destruct (read_lines _ _ _ _) as [output_lines w1] eqn:Hread.
  rewrite cleanup_unregisters. unfold emit, record. simpl.
  assert (Hreg : forall pending acc (v v1 : world H) out,
            read_lines ("proc_" +:+ (host_uuid4_hex (host w)).1) pending acc v = (out, v1) ->
            running_processes v1 = running_processes v).
  { induction pending as [|[text|msg] rest IH]; intros acc v v1 out Hr; simpl in Hr.
    - by injection Hr as _ <-.
    - apply IH in Hr. exact Hr.
    - by injection Hr as _ <-. }
  rewrite (Hreg _ _ _ _ _ Hread). simpl. by apply delete_insert_id.
Qed.

End LaunchFacts.


(** ** The output pump when reading fails *)
Section PumpFacts.
Import Web Terms Notions.
Context {H : Type} `{Host H}.

Lemma read_lines_any (process_id : string) (pending : list read_result)
    (acc : list string) (w : world H) :
  exists told,
    read_lines process_id pending acc w
    = (acc ++ lines_read pending,
       World (host w) (running_processes w) (effects w ++ told))
    /\ completions told = [] /\ Forall is_emit told.
Proof.
  revert acc w. induction pending as [|[text|msg] rest IH]; intros acc w; simpl.
  - exists []. rewrite !app_nil_r. by destruct w.
  - destruct (IH (acc ++ [text]) (emit (Output process_id (Py.rstrip_nl text)) w))
      as (told & -> & Hnone & Hemit).
    exists (Emit (Output process_id (Py.rstrip_nl text)) :: told).
    unfold emit, record. simpl. rewrite <- !app_assoc.
    repeat split; [done |]. by constructor.
  - exists [Emit (Error ("Output stream error: " +:+ msg))].
    rewrite app_nil_r. repeat split. by repeat constructor.
Qed.

(** X4: whatever the child's output stream does, a read error included,
    [stream_process_output] sends exactly one completion event; it carries
    the status the child ended with and the lines read before the error,
    concatenated; and the session is off the registry afterwards. *)
Theorem stream_completes_exactly_once
    (proc : Popen) (process_id : string) (w : world H) :
  exists added,
    effects (stream_process_output proc process_id w) = effects w ++ added
    /\ completions added
       = [ProcessComplete process_id (exit_code proc)
            (Py.join "" (lines_read (stdout proc)))]
    /\ running_processes (stream_process_output proc process_id w) !! process_id = None.
Proof.
  unfold stream_process_output.
  destruct (read_lines_any process_id (stdout proc) [] w) as (told & -> & Hnone & _).
  simpl.
  set (announced := emit _ _).
  destruct (cleanup_effects process_id announced) as (removed & Heq & Hdel).
  exists (told ++ [Emit (ProcessComplete process_id (exit_code proc)
                           (Py.join "" (lines_read (stdout proc))))] ++ removed).
  split; [| split].
  - rewrite Heq. unfold announced, emit, record. simpl. by rewrite <- !app_assoc.
  - rewrite !completions_app, Hnone, (completions_deletions removed Hdel). done.
  - rewrite cleanup_unregisters. apply lookup_delete_eq.
Qed.

(** X5: cleaning up one session leaves the entry of every other session
    in the registry as it was. *)
Theorem cleanup_keeps_other_sessions
    (process_id other : string) (w : world H) :
  other <> process_id ->
  running_processes (cleanup_process_resources process_id w) !! other
  = running_processes w !! other.
Proof. intros Hne. rewrite cleanup_unregisters. by apply lookup_delete_ne. Qed.

End PumpFacts.

(** ** The input relay: what a message cannot do *)
Section RelayFacts.
Import Web Terms Notions.
Context {H : Type} `{Host H}.

(** X6: whatever the message, [handle_send_input] leaves the host as it
    was, leaves the entry of every session other than the one addressed as
    it was, and either adds no effect or adds a single error event. *)
Theorem send_input_is_confined (data : input_message) (w : world H) :
  host (handle_send_input data w) = host w
  /\ (forall other, msg_process_id data <> Given other ->
        running_processes (handle_send_input data w) !! other
        = running_processes w !! other)
  /\ (effects (handle_send_input data w) = effects w
      \/ exists message,
           effects (handle_send_input data w) = effects w ++ [Emit (Error message)]).
Proof.
  unfold handle_send_input.
  destruct (msg_process_id data) as [| |process_id]; simpl; try by auto.
  destruct (get_or (msg_text data) "") as [text|]; [| by auto].
  destruct (String.eqb process_id ""); [by auto |].
  destruct (running_processes w !! process_id) as [info|]; [| by auto].
  destruct (poll (process info)); [by auto |].
  destruct (stdin (process info)) as [pipe|]; [| by auto].
  destruct (write_and_flush _ _ pipe) as [e | pipe']; simpl.
  - split; [done |]. split; [done |]. right. by eexists.
  - split; [done |]. split; [| by left].
    intros other Hne. apply lookup_insert_ne. congruence.
Qed.


(** X8: the keys a message may lack, for a live session with an open
    pipe.  A message whose text is [null] is dropped: the world is as it
    was.  A message with neither a text key nor an append-newline key is
    delivered as the empty text with the newline asked for: the child
    receives what was pending and one newline. *)
Theorem message_without_text
    (process_id : string) (flag : field bool) (info : proc_info)
    (pipe : StdinPipe) (w : world H) :
  process_id <> "" ->
  running_processes w !! process_id = Some info ->
  poll (process info) = None ->
  stdin (process info) = Some pipe ->
  closed pipe = false ->
  handle_send_input {| msg_process_id := Given process_id; msg_text := Null;
                       msg_append_newline := flag |} w = w
  /\ exists info',
       handle_send_input {| msg_process_id := Given process_id; msg_text := Absent;
                            msg_append_newline := Absent |} w
       = World (host w) (<[process_id := info']> (running_processes w)) (effects w)
       /\ stdin (process info')
          = Some {| closed := false; buffered := "";
                    delivered := delivered pipe +:+ (buffered pipe +:+ Py.nl) |}.
Proof.
  intros Hne Hinfo Hlive Hpipe Hopen. split; [done |].
  unfold handle_send_input. simpl.
  apply String.eqb_neq in Hne. rewrite Hne, Hinfo, Hlive, Hpipe.
  rewrite write_and_flush_open by done. simpl.
  eexists. split; [reflexivity | done].
Qed.

End RelayFacts.


(** ** Preparing the command: what [build_execution_command] leaves alone *)
Section HostOnly.
Import Web Terms Notions.
Context {H : Type} `{Host H}.

Lemma host_only_ret {A} (a : A) : host_only (H:=H) (ret a).
Proof. by intros w. Qed.

Lemma host_only_raise {A} (e : exn) : host_only (H:=H) (A:=A) (raise e).
Proof. by intros w. Qed.

Lemma host_only_gets {A} (f : world H -> A) : host_only (H:=H) (gets f).
Proof. by intros w. Qed.

Lemma host_only_modify (f : H -> H) : host_only (modify (with_host f)).
Proof. by intros w. Qed.

Lemma host_only_bind {A B} (c : world H -> (exn + A) * world H)
    (k : A -> world H -> (exn + B) * world H) :
  host_only c -> (forall a, host_only (k a)) -> host_only (bind c k).
Proof.
  intros Hc Hk w. unfold bind. destruct (Hc w) as [Hr He].
  destruct (c w) as [[e|a] w1]; simpl in *; [done |].
  destruct (Hk a w1) as [Hr' He']. by rewrite Hr', He'.
Qed.

Lemma host_only_uuid4_hex : host_only uuid4_hex.
Proof. intros w. unfold uuid4_hex. by destruct (host_uuid4_hex (host w)). Qed.

Lemma host_only_subprocess_run (cmd : list string) : host_only (subprocess_run cmd).
Proof.
  intros w. unfold subprocess_run. by destruct (host_run (host w) cmd) as [[r h']|].
Qed.

Lemma host_only_storage_save (destination : string) :
  host_only (storage_save destination).
Proof.
  intros w. unfold storage_save. by destruct (host_save (host w) destination).
Qed.

End HostOnly.

Ltac host_only_step :=
  first
    [ apply host_only_ret | apply host_only_raise | apply host_only_gets
    | apply host_only_modify | apply host_only_uuid4_hex
    | apply host_only_subprocess_run | apply host_only_storage_save
    | apply host_only_bind; [| intros ?] ].

Section BuildMore.
Import Web Terms Notions.
Context {H : Type} `{Host H}.

Lemma host_only_compile_native (compiler label file_path : string) :
  host_only (compile_native compiler label file_path).
Proof.
  unfold compile_native, mbind, M_bind, mret, ensure_upload_dir.
  repeat (host_only_step || case_match).
Qed.

Lemma host_only_build_execution_command (file_path : string) :
  host_only (build_execution_command file_path).
Proof.
  unfold build_execution_command, mbind, M_bind, mret, ensure_upload_dir.
  repeat (host_only_step || apply host_only_compile_native || case_match).
Qed.

(** X9: [build_execution_command] works on the host only: whether it
    returns a command or raises, no session has been registered or
    removed and no effect (spawn, deletion, event) has been added. *)
Theorem build_command_touches_host_only (file_path : string) (w : world H) :
  running_processes (build_execution_command file_path w).2 = running_processes w
  /\ effects (build_execution_command file_path w).2 = effects w.
Proof. apply host_only_build_execution_command. Qed.

End BuildMore.


Section BuildOutcomes.
Import Web Terms Notions.
Context {H : Type} `{Host H}.

Ltac run_monad :=
  unfold build_execution_command, compile_native, mbind, M_bind, mret, M_ret,
    bind, ret, raise, gets, modify, uuid4_hex, subprocess_run, ensure_upload_dir,
    with_host in *;
  simpl in *.

(** X10: the cleanup paths [build_execution_command] returns are either
    none, or the one build directory it made: a directory directly under
    the uploads root whose name is [build_] followed by the token drawn for
    this call. *)
Theorem build_command_cleanup_paths
    (file_path : string) (w w' : world H) (command_parts to_clean : list string) :
  build_execution_command file_path w = (inr (command_parts, to_clean), w') ->
  to_clean = []
  \/ to_clean
     = [Paths.joinpath UPLOAD_DIR
          ("build_" +:+ (host_uuid4_hex (host_mkdir (host w) UPLOAD_DIR)).1)].
Proof.
  intros Hrun. run_monad.
  destruct (host_uuid4_hex (host_mkdir (host w) UPLOAD_DIR)) as [hex h1] eqn:Huuid.
  repeat (case_match; simplify_eq/=); auto.
Qed.

(** X11: for an existing script whose suffix is in the interpreter table,
    nothing is compiled: when the interpreter is on the search path the
    command is the interpreter followed by the script, with nothing to
    clean up; when it is not, the call raises [RuntimeError] naming the
    interpreter.  The world is as it was in both cases, and whether the
    script itself is executable makes no difference. *)
Theorem build_command_for_script
    (file_path : string) (interpreter : string) (more : list string) (w : world H) :
  host_exists (host w) file_path = true ->
  interpreter_map (Py.lower (Paths.suffix file_path)) = Some (Some (interpreter :: more)) ->
  build_execution_command file_path w
  = if host_which (host w) interpreter
    then (inr (interpreter :: more ++ [file_path], []), w)
    else (inl (RuntimeError ("Required interpreter '" +:+ interpreter
                               +:+ "' not found on PATH.")), w).
Proof.
  intros Hexists Hmap. run_monad. rewrite Hexists, Hmap. simpl.
  rewrite andb_false_r. simpl.
  by destruct (host_which (host w) interpreter).
Qed.

End BuildOutcomes.


(** ** Uploads *)
Section Strings.

Lemma list_ascii_of_append (a b : string) :
  list_ascii_of_string (a +:+ b) = list_ascii_of_string a ++ list_ascii_of_string b.
Proof. induction a as [|c a IH]; simpl; [done | by rewrite IH]. Qed.

Lemma list_ascii_inj (a b : string) :
  list_ascii_of_string a = list_ascii_of_string b -> a = b.
Proof.
  intros Heq. rewrite <- (string_of_list_ascii_of_string a),
    <- (string_of_list_ascii_of_string b). by rewrite Heq.
Qed.

(** Appending the same string to two strings that differ gives two
    strings that differ. *)
Lemma append_inv_tail (x y b : string) : x +:+ b = y +:+ b -> x = y.
Proof.
  intros Heq. apply (f_equal list_ascii_of_string) in Heq.
  rewrite !list_ascii_of_append in Heq.
  apply app_inv_tail in Heq. by apply list_ascii_inj.
Qed.

End Strings.

Section UploadFacts.
Import Web Terms Notions.
Context {H : Type} `{Host H}.

(** Where [save_uploaded_file] writes, for a name that survives
    [secure_filename]. *)
Lemma save_uploaded_file_destination (filename destination : string) (w w' : world H) :
  host_secure_filename filename <> "" ->
  save_uploaded_file filename w = (inr destination, w') ->
  destination
  = Paths.joinpath UPLOAD_DIR
      (Paths.stem (host_secure_filename filename) +:+ "_"
       +:+ (host_uuid4_hex (host_mkdir (host w) UPLOAD_DIR)).1
       +:+ Paths.suffix (host_secure_filename filename)).
Proof.
  intros Hname Hsave. apply String.eqb_neq in Hname.
  unfold save_uploaded_file, storage_save, mbind, M_bind, mret, M_ret, bind, ret,
    modify, uuid4_hex, ensure_upload_dir, with_host in Hsave.
  rewrite Hname in Hsave. simpl in Hsave.
  destruct (host_uuid4_hex (host_mkdir (host w) UPLOAD_DIR)) as [hex h1].
  simpl in Hsave. destruct (host_save h1 _); by simplify_eq/=.
Qed.

(** X12: two uploads of the same file name are written to different
    paths whenever the tokens drawn for them differ; and each upload is
    written directly under the uploads root, its name made of the secured
    name's stem, the token and the secured name's suffix. *)
Theorem uploads_do_not_collide
    (filename d1 d2 : string) (w1 w1' w2 w2' : world H) :
  host_secure_filename filename <> "" ->
  save_uploaded_file filename w1 = (inr d1, w1') ->
  save_uploaded_file filename w2 = (inr d2, w2') ->
  (host_uuid4_hex (host_mkdir (host w1) UPLOAD_DIR)).1
    <> (host_uuid4_hex (host_mkdir (host w2) UPLOAD_DIR)).1 ->
  d1 <> d2
  /\ d1 = Paths.joinpath UPLOAD_DIR
            (Paths.stem (host_secure_filename filename) +:+ "_"
             +:+ (host_uuid4_hex (host_mkdir (host w1) UPLOAD_DIR)).1
             +:+ Paths.suffix (host_secure_filename filename)).
Proof.
  intros Hname Hs1 Hs2 Htokens.
  apply save_uploaded_file_destination in Hs1; [| done].
  apply save_uploaded_file_destination in Hs2; [| done].
  split; [| done]. intros Heq. apply Htokens. subst d1 d2.
  unfold Paths.joinpath in Heq.
  apply (inj (String.app UPLOAD_DIR)) in Heq.
  apply (inj (String.app "/")) in Heq.
  apply (inj (String.app (Paths.stem (host_secure_filename filename)))) in Heq.
  apply (inj (String.app "_")) in Heq.
  by apply append_inv_tail in Heq.
Qed.

End UploadFacts.


(** ** The analyze-and-run route as a whole *)
Section RouteFacts.
Import Web Terms Notions.
Context {H : Type} `{Host H}.

Lemma host_only_save_uploaded_file (filename : string) :
  host_only (save_uploaded_file filename).
Proof.
  unfold save_uploaded_file, mbind, M_bind, mret, ensure_upload_dir.
  repeat (host_only_step || case_match).
Qed.

(** How the second half of the route ends: with a session registered and
    its child spawned, or with status 400, the registry untouched and at
    most the upload unlinked. *)
Lemma analyze_then_launch_outcome
    (r : request) (uploaded : bool) (saved_path : string) (w : world H) :
  match (analyze_then_launch r uploaded saved_path w).1 with
  | Launched process_id child _ _ =>
      (exists info,
         running_processes (analyze_then_launch r uploaded saved_path w).2
         = <[process_id := info]> (running_processes w))
      /\ exists cmd,
           effects (analyze_then_launch r uploaded saved_path w).2
           = effects w ++ [Spawn cmd child]
  | Failed status _ _ =>
      status = 400
      /\ running_processes (analyze_then_launch r uploaded saved_path w).2
         = running_processes w
      /\ (effects (analyze_then_launch r uploaded saved_path w).2 = effects w
          \/ uploaded = true
             /\ effects (analyze_then_launch r uploaded saved_path w).2
                = effects w ++ [Unlink saved_path])
  end.
Proof.
  destruct (analyze_then_launch r uploaded saved_path w) as [resp w'] eqn:Hrun.
  simpl.
  unfold analyze_then_launch, mbind, M_bind, mret, M_ret, bind, ret in Hrun.
  destruct (host_only_build_execution_command saved_path w) as [Hreg Heff].
  destruct (build_execution_command saved_path w) as [[e|[command_parts to_clean]] w1];
    simpl in Hreg, Heff.
  - injection Hrun as <- <-.
    destruct (uploaded && host_exists (host w1) saved_path) eqn:Hup; simpl.
    + apply andb_true_iff in Hup as [-> _]. rewrite Hreg, Heff. auto.
    + rewrite Hreg, Heff. auto.
  - set (md := {| meta_uploaded_file := _; meta_cleanup_paths := to_clean |}) in Hrun.
    pose proof (launch_cases command_parts (form_limits r) md w1) as Hcases.
    destruct (find_sandbox (host w1)) as [sandbox_path|].
    + simpl in Hcases. destruct (host_popen _ _) as [[proc h2]|].
      * rewrite Hcases in Hrun. injection Hrun as <- <-. simpl.
        rewrite Hreg, Heff. split; by eexists.
      * rewrite Hcases in Hrun. injection Hrun as <- <-.
        destruct (uploaded && host_exists _ saved_path) eqn:Hup; simpl.
        -- apply andb_true_iff in Hup as [-> _]. rewrite Hreg, Heff. auto.
        -- rewrite Hreg, Heff. auto.
    + rewrite Hcases in Hrun. injection Hrun as <- <-.
      destruct (uploaded && host_exists (host w1) saved_path) eqn:Hup; simpl.
      * apply andb_true_iff in Hup as [-> _]. rewrite Hreg, Heff. auto.
      * rewrite Hreg, Heff. auto.
Qed.

(** Which file the route settles on, and what that costs: the registry
    and the effects are as they were. *)
Lemma analyze_and_run_split (r : request) (w : world H) :
  (exists status error,
     analyze_and_run r w = (Failed status error None, (analyze_and_run r w).2)
     /\ running_processes (analyze_and_run r w).2 = running_processes w
     /\ effects (analyze_and_run r w).2 = effects w)
  \/ exists uploaded saved_path w1,
       analyze_and_run r w = analyze_then_launch r uploaded saved_path w1
       /\ running_processes w1 = running_processes w
       /\ effects w1 = effects w
       /\ (uploaded = true ->
           default "" (file_part r) <> "")
       /\ (uploaded = false -> w1 = w).
Proof.
  unfold analyze_and_run.
  destruct (negb (String.eqb (default "" (file_part r)) "")) eqn:Hfile.
  - destruct (host_only_save_uploaded_file (default "" (file_part r)) w) as [Hreg Heff].
    destruct (save_uploaded_file _ w) as [[e|saved] w1]; simpl in Hreg, Heff.
    + left. by repeat eexists.
    + destruct (host_resolve (host w1) saved) as [c|].
      * right. exists true, (Paths.to_string c), w1.
        repeat split; try done.
        intros _. by apply negb_true_iff, String.eqb_neq in Hfile.
      * left. by repeat eexists.
  - destruct (negb (String.eqb (Py.strip (default "" (form_file_path r))) "")).
    + destruct (host_resolve (host w) _) as [c|]; [| left; by repeat eexists].
      destruct (host_exists (host w) (Paths.to_string c)); [| left; by repeat eexists].
      destruct (host_resolve (host w) (Paths.to_string c)) as [c'|];
        [| left; by repeat eexists].
      right. exists false, (Paths.to_string c'), w. by repeat split.
    + left. by repeat eexists.
Qed.

(** X13: whenever the route answers with a failure, no session has been
    registered and no child has been spawned: the registry is as it was,
    and the only effect there can be is the removal of the upload. *)
Theorem failed_request_registers_nothing
    (r : request) (w : world H) (status : nat) (error : string)
    (analysis : option string) :
  (analyze_and_run r w).1 = Failed status error analysis ->
  running_processes (analyze_and_run r w).2 = running_processes w
  /\ exists added,
       effects (analyze_and_run r w).2 = effects w ++ added
       /\ Forall is_deletion added.
Proof.
  intros Hfailed.
  destruct (analyze_and_run_split r w)
    as [(s & m & _ & Hreg & Heff)
       | (uploaded & saved_path & w1 & Heq & Hreg & Heff & _)].
  - split; [done |]. exists []. by rewrite app_nil_r.
  - rewrite Heq in *.
    pose proof (analyze_then_launch_outcome r uploaded saved_path w1) as Hout.
    rewrite Hfailed in Hout. destruct Hout as (_ & Hreg' & Heff').
    split; [congruence |].
    destruct Heff' as [-> | [_ ->]].
    + exists []. by rewrite app_nil_r, Heff.
    + exists [Unlink saved_path]. rewrite Heff. split; [done |]. by repeat constructor.
Qed.

(** X14: for a request that names a file by path and uploads nothing,
    the route deletes nothing: the effects it adds are none, or the
    spawning of the child. *)
Theorem path_request_deletes_nothing (r : request) (w : world H) :
  default "" (file_part r) = "" ->
  exists added,
    effects (analyze_and_run r w).2 = effects w ++ added
    /\ Forall is_spawn added.
Proof.
  intros Hfile.
  destruct (analyze_and_run_split r w)
    as [(s & m & _ & Hreg & Heff)
       | (uploaded & saved_path & w1 & Heq & Hreg & Heff & Hup & _)].
  - exists []. by rewrite app_nil_r.
  - destruct uploaded; [by destruct (Hup eq_refl) |].
    rewrite Heq.
    pose proof (analyze_then_launch_outcome r false saved_path w1) as Hout.
    destruct (analyze_then_launch r false saved_path w1).1
      as [started child analysis command_parts | status error analysis].
    + destruct Hout as (_ & full_cmd & ->). exists [Spawn full_cmd child].
      rewrite Heff. split; [done |]. by repeat constructor.
    + destruct Hout as (_ & _ & [-> | [? _]]); [| done].
      exists []. by rewrite app_nil_r, Heff.
Qed.

End RouteFacts.

(** ** Limits the launcher treats as absent *)
Section FalsyLimits.
Import Web Terms Notions.

Lemma verbatim_settled (option_text : string) (v : Py.value) :
  verbatim option_text (settled v) = verbatim option_text v.
Proof. unfold verbatim, settled. by destruct (Py.truthy v) eqn:Hv; [rewrite Hv |]. Qed.

(** X15: a limit whose value is zero or the empty text has the same
    effect on the command line as a limit that is not given at all, in the
    web launcher and in the command-line front end alike. *)
Theorem falsy_limits_are_dropped
    (sandbox_path : string) (l : limits) (a : Cli.args) (target : list string) :
  full_cmd_of sandbox_path (settled_limits l) target = full_cmd_of sandbox_path l target
  /\ Cli.cmd_of sandbox_path (settled_args a) = Cli.cmd_of sandbox_path a.
Proof.
  split.
  - rewrite !full_cmd_of_verbatim. unfold verbatim_flags, settled_limits. simpl.
    by rewrite !verbatim_settled.
  - by destruct a as [[[| |]|] [[| |]|] [[| |]|] [[| |]|] target'].
Qed.

End FalsyLimits.

(** ** Finding the sandbox binary *)
Section FindSandbox.
Import Web Terms Notions.
Context {H : Type} `{Host H}.

(** X16: the path [find_sandbox] returns is one of the six places it
    looks in, exists and is executable, and no place before it in the list
    qualifies; it returns nothing exactly when none of the six does. *)
Theorem find_sandbox_sound (h : H) :
  match find_sandbox h with
  | Some found =>
      host_exists h found = true /\ host_access_x h found = true
      /\ exists earlier later,
           candidates h = earlier ++ found :: later
           /\ Forall (fun p => host_exists h p && host_access_x h p = false) earlier
  | None =>
      Forall (fun p => host_exists h p && host_access_x h p = false) (candidates h)
  end.
Proof.
  unfold find_sandbox. fold (candidates h).
  induction (candidates h) as [|p rest IH]; simpl; [constructor |].
  destruct (host_exists h p && host_access_x h p) eqn:Hok.
  - apply andb_true_iff in Hok as [He Hx]. split; [done |]. split; [done |].
    exists [], rest. split; [done | constructor].
  - destruct (List.find _ rest) as [found|].
    + destruct IH as (He & Hx & earlier & later & -> & Hall).
      split; [done |]. split; [done |].
      exists (p :: earlier), later. split; [done |]. by constructor.
    + by constructor.
Qed.

End FindSandbox.

(** ** The run route *)
Section RunRoute.
Import Web Terms Notions Routes.
Context {H : Type} `{Host H}.

(** X17: [/api/run] refuses a command that is missing, zero, empty or
    made of white space only ([str.strip] leaves nothing of it) with
    status 400, before anything is parsed or launched: the world is as it
    was. *)
Theorem run_sandbox_blank_command
    (shlex_split : string -> exn + list string) (r : run_request) (w : world H) :
  Py.truthy (run_command r) = false
  \/ (exists command, run_command r = Py.PyStr command /\ Py.strip command = "") ->
  run_sandbox shlex_split r w
  = (Refused 400 "Command is required. Please enter a command to execute.", w).
Proof.
  intros [Hfalsy | (command & Hcmd & Hblank)]; unfold run_sandbox.
  - destruct (run_command r) as [|z|command]; simpl in Hfalsy; [done | |].
    + apply negb_false_iff in Hfalsy. by rewrite Hfalsy.
    + apply negb_false_iff, String.eqb_eq in Hfalsy. by subst command.
  - by rewrite Hcmd, Hblank.
Qed.

(** X18: a session started by [/api/run] has nothing on record for
    cleanup, so when its child ends the pump removes the session from the
    registry and deletes nothing: the host is as it was and every effect
    added is an event sent to the browser. *)
Theorem run_session_cleans_nothing
    (shlex_split : string -> exn + list string) (r : run_request)
    (w w' : world H) (process_id : string) (child : Z) (proc : Popen) :
  run_sandbox shlex_split r w = (Started process_id child, w') ->
  exists told,
    stream_process_output proc process_id w'
    = World (host w') (delete process_id (running_processes w')) (effects w' ++ told)
    /\ Forall is_emit told.
Proof.
  intros Hrun. unfold run_sandbox in Hrun.
  destruct (run_command r) as [|z|command]; [done | |].
  { destruct (z =? 0)%Z; [done |]. by destruct (find_sandbox (host w)). }
  destruct (String.eqb (Py.strip command) ""); [done |].
  destruct (shlex_split command) as [e|command_parts]; [done |].
  pose proof (launch_cases (command_parts ++ run_args r) (run_limits r)
                empty_metadata w) as Hcases.
  destruct (find_sandbox (host w)) as [sandbox_path|];
    [| rewrite Hcases in Hrun; done].
  simpl in Hcases. destruct (host_popen _ _) as [[spawned h2]|];
    [| rewrite Hcases in Hrun; done].
  rewrite Hcases in Hrun. injection Hrun as <- <- <-.
  unfold stream_process_output.
  destruct (read_lines_any ("proc_" +:+ (host_uuid4_hex (host w)).1)
              (stdout proc) [] (World h2 (<["proc_" +:+ (host_uuid4_hex (host w)).1 :=
                 {| process := spawned; info_pid := pid spawned;
                    command := Py.join " " (full_cmd_of sandbox_path (run_limits r)
                                              (command_parts ++ run_args r));
                    start_time := host_time h2;
                    uploaded_file := None; cleanup_paths := [] |}]>
                 (running_processes w))
                 (effects w ++ [Spawn (full_cmd_of sandbox_path (run_limits r)
                                         (command_parts ++ run_args r)) (pid spawned)])))
    as (told & Hread & _ & Hemit).
  unfold empty_metadata in *. simpl in *. rewrite Hread. simpl.
  unfold cleanup_process_resources, emit, record. simpl.
  rewrite lookup_insert_eq. simpl.
  exists (told ++ [Emit (ProcessComplete ("proc_" +:+ (host_uuid4_hex (host w)).1)
                          (exit_code proc) (Py.join "" (lines_read (stdout proc))))]).
  split; [by rewrite <- !app_assoc |].
  apply Forall_app. split; [done |]. by repeat constructor.
Qed.

End RunRoute.

(** ** The analyze route *)
Section AnalyzeRoute.
Import Web Terms Notions Routes.
Context {H : Type} `{Host H}.

(** X19: [/api/analyze] never touches the registry and never spawns.  For
    a request that names a file by path the whole world is as it was.  For
    an upload, the only effect there can be is the unlinking of the path
    the upload was saved to, which is the file name joined to [uploads]
    as it came, with no check of where that leads. *)
Theorem analyze_code_is_confined (r : analyze_request) (w : world H) :
  running_processes (analyze_code r w).2 = running_processes w
  /\ (analyze_upload r = None -> (analyze_code r w).2 = w)
  /\ (effects (analyze_code r w).2 = effects w
      \/ exists filename,
           analyze_upload r = Some filename
           /\ effects (analyze_code r w).2
              = effects w ++ [Unlink (os_path_join "uploads" filename)]).
Proof.
  unfold analyze_code.
  destruct (analyze_upload r) as [filename|].
  - destruct (String.eqb filename ""); [by auto |].
    simpl. destruct (host_save _ _) as [h2|]; simpl.
    + destruct (host_exists h2 _); simpl.
      * split; [done |]. split; [done |]. right. by exists filename.
      * split; [done |]. split; [done |]. by left.
    + split; [done |]. split; [done |]. by left.
  - destruct (analyze_file_path r) as [file_path|]; [| by auto].
    destruct (_ && _); by auto.
Qed.

End AnalyzeRoute.

Section AnalyzeRoutePosix.
Import Web Terms Notions Routes Posix.

(** X20: on a tree without symbolic links where the uploads directory
    exists, an upload sent to [/api/analyze] and saved leaves no node at the
    path it was saved to, whether or not a file of that name was there
    before, and leaves every other node as it was. *)
Theorem analyze_code_consumes_the_upload
    (r : analyze_request) (filename : string) (w : world state) (saved : state) :
  analyze_upload r = Some filename ->
  filename <> "" ->
  mkdir_at (host w) "uploads" = host w ->
  save_at (host w) (os_path_join "uploads" filename) = Some saved ->
  nodes (host (analyze_code r w).2)
  = delete (locate (host w) (os_path_join "uploads" filename)) (nodes (host w)).
Proof.
  intros Hupload Hname Hdir Hsave. apply String.eqb_neq in Hname.
  unfold analyze_code. rewrite Hupload, Hname. simpl. rewrite Hdir, Hsave. simpl.
  unfold save_at in Hsave.
  destruct (locate (host w) (os_path_join "uploads" filename)) as [|seg c] eqn:Hloc;
    [done |].
  destruct (is_dir_at _ _); [| done]. injection Hsave as <-.
  match goal with
  | |- context [if ?present then _ else _] =>
      assert (Hthere : present = true);
        [| rewrite Hthere]
  end.
  { unfold exists_at, lookup_node, locate in *. simpl. rewrite Hloc.
    apply bool_decide_eq_true. rewrite lookup_insert_eq. by eexists. }
  simpl. unfold locate in *. simpl. rewrite Hloc.
  by rewrite delete_insert_eq.
Qed.

End AnalyzeRoutePosix.

(** ** The analyser's report *)
Section Report.
Import Analyzer.

Lemma count_level_app (level : string) (l1 l2 : list finding) :
  count_level level (l1 ++ l2) = count_level level l1 + count_level level l2.
Proof. unfold count_level. by rewrite filter_app, length_app. Qed.

Lemma length_by_level (findings : list finding) :
  length findings
  = count_level "CRITICAL" findings + count_level "HIGH" findings
    + count_level "MEDIUM" findings
    + length (filter (fun v => severity v <> "CRITICAL" /\ severity v <> "HIGH"
                               /\ severity v <> "MEDIUM") findings).
Proof.
  unfold count_level. induction findings as [|v findings IH]; [done |].
  rewrite !filter_cons. simpl. rewrite IH.
  destruct (decide (severity v = "CRITICAL")) as [Hc|Hc];
    destruct (decide (severity v = "HIGH")) as [Hh|Hh];
    destruct (decide (severity v = "MEDIUM")) as [Hm|Hm];
    try congruence;
    (destruct (decide (_ /\ _ /\ _)) as [Hother|Hother];
       [try (destruct Hother as (? & ? & ?); congruence) | try (exfalso; apply Hother; done)]);
    simpl; lia.
Qed.

Lemma length_by_medium (findings : list finding) :
  length findings
  = count_level "MEDIUM" findings
    + length (filter (fun v => severity v <> "MEDIUM") findings).
Proof.
  unfold count_level. induction findings as [|v findings IH]; [done |].
  rewrite !filter_cons. simpl. rewrite IH.
  repeat case_decide; simpl; first [lia | contradiction].
Qed.

(** X21: in every report the total is the sum of the three counters and
    of the findings the counters leave out, which are the vulnerabilities
    of another level and the warnings that are not MEDIUM.  So the three
    counters never exceed the total, and they add up to it exactly when
    nothing is left out. *)
Theorem report_counters_and_total (self : analyzer) (file_path : string) :
  let r := _generate_report self file_path in
  total_issues r = critical r + high r + medium r + uncounted self
  /\ critical r + high r + medium r <= total_issues r
  /\ (critical r + high r + medium r = total_issues r <-> uncounted self = 0).
Proof.
  simpl.
  assert (Htotal : length (vulnerabilities self) + length (warnings self)
                   = count_level "CRITICAL" (vulnerabilities self)
                     + count_level "HIGH" (vulnerabilities self)
                     + count_level "MEDIUM" (vulnerabilities self ++ warnings self)
                     + uncounted self).
  { rewrite count_level_app. unfold uncounted.
    rewrite (length_by_level (vulnerabilities self)) at 1.
    rewrite (length_by_medium (warnings self)) at 1. lia. }
  split; [exact Htotal |]. split; lia.
Qed.

(** X22: the command-line analysis ends with status 0 exactly when the
    report holds no vulnerability and no warning, and with status 1
    otherwise; for a result that holds only an error message (a missing
    file, a suffix the analyser does not know) it does not end with a
    status at all but raises [KeyError] on the first key it reads. *)
Theorem analyze_command_status (self : analyzer) (file_path error : string) :
  (analyze_command (Report (_generate_report self file_path)) = Exit 0
   <-> vulnerabilities self = [] /\ warnings self = [])
  /\ (analyze_command (Report (_generate_report self file_path)) = Exit 1
      <-> vulnerabilities self <> [] \/ warnings self <> [])
  /\ analyze_command (ErrorOnly error) = KeyError "total_issues".
Proof.
  unfold analyze_command. simpl.
  destruct (vulnerabilities self) as [|v vs], (warnings self) as [|x xs]; simpl;
    repeat split; try done; intros; try discriminate; auto;
    try (destruct H as [? ?]; discriminate);
    try (destruct H as [? | ?]; done).
Qed.

End Report.

(** ** The status route *)
Section Status.
Import Web Terms Notions Routes.
Context {H : Type} `{Host H}.

(** X23: [/api/status] lists exactly the registered sessions whose
    process has not ended, each with its own pid and command; and once a
    session has been cleaned up it is not listed. *)
Theorem status_lists_live_sessions (w : world H) (row : status_row) (process_id : string) :
  (row ∈ get_status w
   <-> exists info,
         running_processes w !! row_process_id row = Some info
         /\ poll (process info) = None
         /\ row_pid row = info_pid info
         /\ row_command row = command info)
  /\ (row ∈ get_status (cleanup_process_resources process_id w) ->
      row_process_id row <> process_id).
Proof.
  assert (Hiff : forall v : world H,
            row ∈ get_status v
            <-> exists info,
                  running_processes v !! row_process_id row = Some info
                  /\ poll (process info) = None
                  /\ row_pid row = info_pid info
                  /\ row_command row = command info).
  { intros v. unfold get_status. rewrite list_elem_of_omap. split.
    - intros ([id info] & Hin & Hrow). apply elem_of_map_to_list in Hin.
      simpl in Hrow. destruct (poll (process info)) eqn:Hpoll; [done |].
      injection Hrow as <-. simpl. by exists info.
    - intros (info & Hin & Hpoll & Hpid & Hcmd).
      exists (row_process_id row, info). split.
      + by apply elem_of_map_to_list.
      + simpl. rewrite Hpoll. destruct row. simpl in *. by subst. }
  split; [apply Hiff |].
  intros Hin Heq. apply Hiff in Hin as (info & Hinfo & _).
  rewrite cleanup_unregisters, Heq, lookup_delete_eq in Hinfo. done.
Qed.

End Status.

(** ** Stopping and clearing the terminal *)
Section ConsoleFacts.
Import Gui Console.

Lemma retract_prompt_running (t : terminal) :
  is_running (retract_prompt t) = is_running t.
Proof. unfold retract_prompt. by repeat case_match. Qed.

Lemma log_output_running (s : string) (t : terminal) :
  is_running (log_output s t) = is_running t.
Proof. unfold log_output, insert_end. simpl. apply retract_prompt_running. Qed.

Lemma log_output_idle (s : string) (t : terminal) :
  waiting_for_input t = false ->
  log_output s t
  = {| output_text := output_text t ++ chars s;
       input_start_marker := input_start_marker t;
       waiting_for_input := false; is_running := is_running t |}.
Proof.
  intros Hidle. unfold log_output. rewrite retract_prompt_idle by done.
  unfold insert_end. by rewrite Hidle.
Qed.

Lemma log_output_quiet (s : string) (t : terminal) :
  waiting_for_input (log_output s t) = false
  \/ input_start_marker (log_output s t) = None.
Proof. unfold log_output, insert_end. simpl. apply retract_prompt_settles. Qed.

(** A byte white space can hold: a white space of its own, or a byte of
    a longer encoding. *)
Lemma is_space2_bytes (a b : ascii) :
  Py.is_space2 a b = true ->
  (128 <=? nat_of_ascii a)%nat = true /\ (128 <=? nat_of_ascii b)%nat = true.
Proof.
  unfold Py.is_space2. intros Hs.
  apply andb_prop in Hs as [Ha Hb]. apply Nat.eqb_eq in Ha.
  apply orb_prop in Hb as [Hb | Hb]; apply Nat.eqb_eq in Hb;
    rewrite Ha, Hb; done.
Qed.

Lemma is_space3_bytes (a b c : ascii) :
  Py.is_space3 a b c = true ->
  (128 <=? nat_of_ascii a)%nat = true /\ (128 <=? nat_of_ascii b)%nat = true
  /\ (128 <=? nat_of_ascii c)%nat = true.
Proof.
  unfold Py.is_space3. intros Hs.
  rewrite !orb_true_iff, !andb_true_iff, !orb_true_iff, !andb_true_iff,
    !Nat.eqb_eq, !Nat.leb_le in Hs.
  rewrite !Nat.leb_le. lia.
Qed.

Lemma blank_bytes (s : string) :
  Py.blank s = true ->
  forallb (fun c => Py.is_space c || (128 <=? nat_of_ascii c)%nat)
    (list_ascii_of_string s) = true.
Proof.
  unfold Py.blank.
  assert (Hall : forall n s, String.length s <= n -> Py.lstrip s = "" ->
                 forallb (fun c => Py.is_space c || (128 <=? nat_of_ascii c)%nat)
                   (list_ascii_of_string s) = true).
  { clear s. induction n as [|n IH]; intros s Hlen Hs.
    - destruct s; [done | simpl in Hlen; lia].
    - destruct s as [|a s1]; [done |]. simpl in Hlen.
      cbn [Py.lstrip] in Hs. cbn [list_ascii_of_string forallb].
      destruct (Py.is_space a) eqn:Ha.
      { rewrite orb_true_l, andb_true_l. apply IH; [lia | done]. }
      destruct s1 as [|b s2]; [done |]. simpl in Hlen.
      cbn [list_ascii_of_string forallb].
      destruct (Py.is_space2 a b) eqn:Hab.
      { apply is_space2_bytes in Hab as [Hab1 Hab2].
        rewrite Hab1, Hab2, !orb_true_r, !andb_true_l. apply IH; [lia | done]. }
      destruct s2 as [|c s3]; [done |]. simpl in Hlen.
      cbn [list_ascii_of_string forallb].
      destruct (Py.is_space3 a b c) eqn:Habc; [| done].
      apply is_space3_bytes in Habc as (Ha1 & Ha2 & Ha3).
      rewrite Ha1, Ha2, Ha3, !orb_true_r, !andb_true_l. apply IH; [lia | done]. }
  intros Hs. apply (Hall (String.length s)); [done |].
  by apply String.eqb_eq.
Qed.

(** A text that ends in one with a plain character is not blank. *)
Lemma visible_app_r (a b : list ascii) :
  forallb (fun c => Py.is_space c || (128 <=? nat_of_ascii c)%nat) b = false ->
  visible (a ++ b) = true.
Proof.
  intros Hb. unfold visible.
  destruct (Py.blank (string_of_list_ascii (a ++ b))) eqn:Hblank; [| done].
  apply blank_bytes in Hblank.
  rewrite list_ascii_of_string_of_list_ascii, forallb_app in Hblank.
  apply andb_prop in Hblank as [_ Hblank]. congruence.
Qed.

Lemma show_ready_message_state (t : terminal) :
  is_running t = false -> waiting_for_input t = false ->
  is_running (show_ready_message t) = false
  /\ waiting_for_input (show_ready_message t) = false.
Proof.
  intros Hrun Hidle. unfold show_ready_message. rewrite Hrun.
  destruct (visible (output_text t)); rewrite log_output_idle by done; by simpl.
Qed.

(** X24: stopping a running test ends the prompt for good.  Afterwards
    the terminal is neither running nor waiting for input, a later silence
    shows no prompt, and a second stop changes nothing.  When terminating
    the process raised nothing, no text is taken away either: what was on
    the terminal, a prompt included, is followed by the stop notice and the
    idle hint. *)
Theorem stop_test_ends_the_prompt
    (terminate_error later_error : option string) (t : terminal) :
  is_running t = true ->
  is_running (stop_test terminate_error t) = false
  /\ waiting_for_input (stop_test terminate_error t) = false
  /\ show_prompt (stop_test terminate_error t) = stop_test terminate_error t
  /\ stop_test later_error (stop_test terminate_error t) = stop_test terminate_error t
  /\ output_text (stop_test None t)
     = output_text t ++ chars STOPPED ++ chars IDLE_HINT.
Proof.
  intros Hrun.
  assert (Hstate : forall e, is_running (stop_test e t) = false
                             /\ waiting_for_input (stop_test e t) = false).
  { intros e. unfold stop_test. rewrite Hrun. simpl.
    apply show_ready_message_state.
    - rewrite log_output_running. simpl. destruct e; [| done].
      by rewrite log_output_running.
    - by rewrite log_output_idle. }
  destruct (Hstate terminate_error) as [Hstopped Hidle].
  split; [done |]. split; [done |]. split; [| split].
  - unfold show_prompt. by rewrite Hidle, Hstopped.
  - unfold stop_test at 1. by rewrite Hstopped.
  - unfold stop_test. rewrite Hrun. simpl.
    rewrite (log_output_idle STOPPED) by done. unfold show_ready_message. simpl.
    match goal with
    | |- context [if visible ?text then _ else _] =>
        assert (visible text = true) as ->
          by (apply (visible_app_r (output_text t) (chars STOPPED)); by vm_compute)
    end.
    rewrite log_output_idle by done. simpl.
    by rewrite <- app_assoc.
Qed.

(** X25: clearing the terminal while a test runs empties it and forgets
    the prompt: whatever was shown and wherever the marker stood, the text
    after any later run of output lines and silences is those lines in
    order, followed by the prompt exactly when the terminal waits for
    input.  Clearing an idle terminal with the ready message asked for
    leaves the introduction and nothing else. *)
Theorem clear_output_starts_afresh
    (show_ready : bool) (t : terminal) (obs : list observation) :
  (is_running t = true ->
   output_text (clear_output show_ready t) = []
   /\ output_text (foldl observe (clear_output show_ready t) obs)
      = transcript obs
        ++ (if waiting_for_input (foldl observe (clear_output show_ready t) obs)
            then chars "$ " else []))
  /\ (is_running t = false ->
      output_text (clear_output true t) = chars INTRO
      /\ output_text (clear_output false t) = []).
Proof.
  split.
  - intros Hrun. unfold clear_output. simpl. rewrite Hrun, andb_false_r.
    split; [done |].
    set (cleared := {| output_text := []; input_start_marker := None;
                       waiting_for_input := false; is_running := true |}).
    assert (Hstart : displays [] cleared) by done.
    destruct (run_displays obs _ _ Hstart) as [_ Hend]. simpl in Hend.
    destruct (waiting_for_input (foldl observe cleared obs)).
    + by destruct Hend as [-> _].
    + by rewrite Hend, app_nil_r.
  - intros Hrun. unfold clear_output. simpl. rewrite Hrun. simpl.
    split; [| done].
    unfold show_ready_message. by simpl.
Qed.

End ConsoleFacts.

(** ** The further statements at the concrete runs *)
Section MoreInstances.
Import Web Terms Notions Routes Posix Scenario Cases.

Lemma failed_launch_registers_nothing_at_bare :
  fst (launch_sandbox_process greet wild_limits no_metadata bare)
    = inl (RuntimeError "Sandbox executable not found")
  /\ running_processes (snd (launch_sandbox_process greet wild_limits no_metadata bare))
     = running_processes bare
  /\ effects (snd (launch_sandbox_process greet wild_limits no_metadata bare))
     = effects bare.
Proof.
  assert (Hfails : fst (launch_sandbox_process greet wild_limits no_metadata bare)
                   = inl (RuntimeError "Sandbox executable not found"))
    by (vm_compute; reflexivity).
  split; [exact Hfails |].
  exact (failed_launch_registers_nothing greet wild_limits no_metadata bare _ Hfails).
Defined.

Lemma launch_at_idle :
  launch_sandbox_process greet wild_limits no_metadata idle
  = (inr ("proc_u0", 4242%Z), started).
Proof.
  unfold started.
  rewrite (surjective_pairing (launch_sandbox_process greet wild_limits no_metadata idle))
    at 1.
  f_equal; vm_compute; reflexivity.
Qed.

Lemma launch_registers_one_session_at_idle :
  (exists info,
     running_processes started !! "proc_u0" = Some info
     /\ info_pid info = 4242%Z
     /\ pid (process info) = 4242%Z
     /\ uploaded_file info = meta_uploaded_file no_metadata
     /\ cleanup_paths info = meta_cleanup_paths no_metadata)
  /\ (forall other, other <> "proc_u0" ->
        running_processes started !! other = running_processes idle !! other)
  /\ (exists sandbox_path,
        find_sandbox (host idle) = Some sandbox_path
        /\ effects started
           = effects idle ++ [Spawn (sandbox_path :: verbatim_flags wild_limits ++ greet)
                                4242%Z]).
Proof.
  exact (launch_registers_one_session greet wild_limits no_metadata idle started
           "proc_u0" 4242%Z launch_at_idle).
Defined.

Lemma session_lifecycle_restores_registry_at_idle :
  running_processes idle !! "proc_u0" = None
  /\ running_processes (stream_process_output greeter_child "proc_u0" started)
     = running_processes idle.
Proof.
  assert (Hfree : running_processes idle !! "proc_u0" = None) by reflexivity.
  split; [exact Hfree |].
  exact (session_lifecycle_restores_registry greet wild_limits no_metadata idle started
           "proc_u0" 4242%Z greeter_child launch_at_idle Hfree).
Defined.

Lemma cleanup_keeps_other_sessions_at_busy :
  "proc_u8" <> "proc_u0"
  /\ running_processes (cleanup_process_resources "proc_u0" busy) !! "proc_u8"
     = running_processes busy !! "proc_u8".
Proof.
  assert (Hne : "proc_u8" <> "proc_u0") by discriminate.
  split; [exact Hne |].
  exact (cleanup_keeps_other_sessions "proc_u0" "proc_u8" busy Hne).
Defined.


Lemma message_without_text_at_busy :
  running_processes busy !! "proc_u8" = Some session
  /\ handle_send_input {| msg_process_id := Given "proc_u8"; msg_text := Null;
                          msg_append_newline := Absent |} busy = busy
  /\ exists info',
       handle_send_input {| msg_process_id := Given "proc_u8"; msg_text := Absent;
                            msg_append_newline := Absent |} busy
       = World (host busy) (<["proc_u8" := info']> (running_processes busy))
               (effects busy)
       /\ stdin (process info')
          = Some {| closed := false; buffered := "";
                    delivered := "" +:+ ("" +:+ Py.nl) |}.
Proof.
  assert (Hinfo : running_processes busy !! "proc_u8" = Some session)
    by (vm_compute; reflexivity).
  split; [exact Hinfo |].
  apply (message_without_text "proc_u8" Absent session
           {| closed := false; buffered := ""; delivered := "" |} busy);
    first [reflexivity | discriminate | exact Hinfo].
Defined.

Lemma build_at_idle :
  build_execution_command "/srv/app/uploads/prog_u6.c" idle
  = (inr (["uploads/build_u0/prog_u6"], ["uploads/build_u0"]), snd rebuilt).
Proof.
  unfold rebuilt.
  rewrite (surjective_pairing (build_execution_command "/srv/app/uploads/prog_u6.c" idle))
    at 1.
  f_equal; vm_compute; reflexivity.
Qed.

Lemma build_command_cleanup_paths_at_idle :
  ["uploads/build_u0"] = []
  \/ ["uploads/build_u0"]
     = [Paths.joinpath UPLOAD_DIR
          ("build_" +:+ (host_uuid4_hex (host_mkdir (host idle) UPLOAD_DIR)).1)].
Proof.
  exact (build_command_cleanup_paths "/srv/app/uploads/prog_u6.c" idle (snd rebuilt)
           ["uploads/build_u0/prog_u6"] ["uploads/build_u0"] build_at_idle).
Defined.

Lemma build_command_for_script_at_idle :
  host_exists (host idle) "hello.py" = true
  /\ interpreter_map (Py.lower (Paths.suffix "hello.py")) = Some (Some ["python3"])
  /\ build_execution_command "hello.py" idle
     = if host_which (host idle) "python3"
       then (inr ("python3" :: [] ++ ["hello.py"], []), idle)
       else (inl (RuntimeError ("Required interpreter '" +:+ "python3"
                                  +:+ "' not found on PATH.")), idle).
Proof.
  assert (Hthere : host_exists (host idle) "hello.py" = true) by reflexivity.
  assert (Hmap : interpreter_map (Py.lower (Paths.suffix "hello.py"))
                 = Some (Some ["python3"])) by reflexivity.
  split; [exact Hthere |]. split; [exact Hmap |].
  exact (build_command_for_script "hello.py" "python3" [] idle Hthere Hmap).
Defined.

Lemma uploads_do_not_collide_at_idle :
  "uploads/prog_u0.c" <> "uploads/prog_u1.c"
  /\ "uploads/prog_u0.c"
     = Paths.joinpath UPLOAD_DIR
         (Paths.stem (host_secure_filename (H:=state) "prog.c") +:+ "_"
          +:+ (host_uuid4_hex (host_mkdir (host idle) UPLOAD_DIR)).1
          +:+ Paths.suffix (host_secure_filename (H:=state) "prog.c")).
Proof.
  assert (Hname : host_secure_filename (H:=state) "prog.c" <> "") by discriminate.
  assert (Hfirst : save_uploaded_file "prog.c" idle
                   = (inr "uploads/prog_u0.c", snd (save_uploaded_file "prog.c" idle))).
  { rewrite (surjective_pairing (save_uploaded_file "prog.c" idle)) at 1.
    f_equal; vm_compute; reflexivity. }
  assert (Hsecond : save_uploaded_file "prog.c" (World machine_with_token ∅ [])
                    = (inr "uploads/prog_u1.c",
                       snd (save_uploaded_file "prog.c" (World machine_with_token ∅ [])))).
  { rewrite (surjective_pairing
               (save_uploaded_file "prog.c" (World machine_with_token ∅ []))) at 1.
    f_equal; vm_compute; reflexivity. }
  apply (uploads_do_not_collide "prog.c" "uploads/prog_u0.c" "uploads/prog_u1.c"
           idle _ (World machine_with_token ∅ []) _ Hname Hfirst Hsecond).
  vm_compute. discriminate.
Defined.

Lemma failed_request_registers_nothing_at_idle :
  running_processes (analyze_and_run broken_upload idle).2 = running_processes idle
  /\ exists added,
       effects (analyze_and_run broken_upload idle).2 = effects idle ++ added
       /\ Forall is_deletion added.
Proof.
  apply (failed_request_registers_nothing broken_upload idle 400
           ("C compilation failed:" +:+ Py.nl +:+ "error: expected ';' before '}' token")
           (Some "{}")).
  vm_compute. reflexivity.
Defined.

Lemma path_request_deletes_nothing_at_idle :
  default "" (file_part path_request) = ""
  /\ exists added,
       effects (analyze_and_run path_request idle).2 = effects idle ++ added
       /\ Forall is_spawn added.
Proof.
  split; [reflexivity |].
  apply (path_request_deletes_nothing path_request idle). reflexivity.
Defined.

Lemma run_sandbox_blank_command_at_idle :
  Py.strip "   " = ""
  /\ run_sandbox words blank_run idle
     = (Refused 400 "Command is required. Please enter a command to execute.", idle).
Proof.
  split; [reflexivity |].
  apply (run_sandbox_blank_command words blank_run idle).
  right. exists "   ". split; reflexivity.
Defined.

Example run_sandbox_refuses_separators :
  run_sandbox words separator_run idle
  = (Refused 400 "Command is required. Please enter a command to execute.", idle).
Proof. reflexivity. Qed.

Lemma run_at_idle :
  run_sandbox words run_greet idle = (Started "proc_u0" 4242%Z, ran).
Proof.
  unfold ran.
  rewrite (surjective_pairing (run_sandbox words run_greet idle)) at 1.
  f_equal; vm_compute; reflexivity.
Qed.

Lemma run_session_cleans_nothing_at_idle :
  exists told,
    stream_process_output greeter_child "proc_u0" ran
    = World (host ran) (delete "proc_u0" (running_processes ran)) (effects ran ++ told)
    /\ Forall is_emit told.
Proof.
  exact (run_session_cleans_nothing words run_greet idle ran "proc_u0" 4242%Z
           greeter_child run_at_idle).
Defined.

Lemma analyze_code_consumes_the_upload_at_busy :
  mkdir_at (host busy) "uploads" = host busy
  /\ nodes (host (analyze_code upload_for_analysis busy).2)
     = delete (locate (host busy) (os_path_join "uploads" "prog_u6.c"))
         (nodes (host busy)).
Proof.
  assert (Hdir : mkdir_at (host busy) "uploads" = host busy) by reflexivity.
  split; [exact Hdir |].
  apply (analyze_code_consumes_the_upload upload_for_analysis "prog_u6.c" busy
           (with_nodes (insert ["srv"; "app"; "uploads"; "prog_u6.c"]
                          (RegularFile false)) machine));
    first [reflexivity | discriminate | exact Hdir].
Defined.

Lemma stop_test_ends_the_prompt_at_prompted :
  Gui.is_running prompted = true
  /\ Gui.is_running (Console.stop_test None prompted) = false
  /\ Gui.waiting_for_input (Console.stop_test None prompted) = false
  /\ Gui.show_prompt (Console.stop_test None prompted) = Console.stop_test None prompted
  /\ Console.stop_test (Some "gone") (Console.stop_test None prompted)
     = Console.stop_test None prompted
  /\ Gui.output_text (Console.stop_test None prompted)
     = Gui.output_text prompted ++ Gui.chars Console.STOPPED
       ++ Gui.chars Console.IDLE_HINT.
Proof.
  split; [reflexivity |].
  apply (stop_test_ends_the_prompt None (Some "gone") prompted). reflexivity.
Defined.

End MoreInstances.
